(** * AI Trends Agent (agents/ai-trends/bot.js): a shallow embedding

    The bot polls six public feeds, turns each into a short ranked list,
    renders the lists as Discord embeds and pushes them on a fixed
    schedule or on command.

    Conventions of the embedding.
    - A JavaScript number is an exact rational ([Q]); IEEE-754 rounding of
      the double-precision operations is not modelled.  A field that the
      source guards with [|| 0], [|| ''] or [?.] is an [option].
    - A string is a byte string.
    - An [async] function is a function into [outcome]: it either returns
      a value or throws.  [await fetch(..)] reads a [fetch_result] supplied
      by the environment.
    - Library functions on strings whose result no property depends on
      (regular-expression tests, [toLowerCase], [encodeURIComponent]) are
      Section variables. *)

From Stdlib Require Import QArith Qround Qabs Lia Lqa.
From stdpp Require Import base option list sorting strings pretty gmap.

Local Open Scope Q_scope.
Local Open Scope string_scope.
Local Open Scope list_scope.

(** ** Numbers *)

(** [Math.round(x)]: the nearest integer, ties towards +infinity. *)
Definition Math_round (x : Q) : Q := inject_Z (Qfloor (x + (1 # 2))).

(** [Math.max(a, b)]. *)
Definition Math_max (a b : Q) : Q := if Qle_bool a b then b else a.

(** [a > b] and [a < b] on numbers. *)
Definition gt (a b : Q) : bool := negb (Qle_bool a b).
Definition lt (a b : Q) : bool := negb (Qle_bool b a).

(** [a <= b] on numbers. *)
Definition le (a b : Q) : bool := Qle_bool a b.

(** [x || 0] on a number, and on a field that may be missing. *)
Definition or0 (x : Q) : Q := if Qeq_bool x 0 then 0 else x.

Definition opt_or0 (x : option Q) : Q :=
  match x with
  | Some q => or0 q
  | None => 0
  end.

(** ** Strings *)

(** [s || d] on an optional string: the empty string is falsy. *)
Definition or_str (s : option string) (d : string) : string :=
  match s with
  | Some (String c r) => String c r
  | _ => d
  end.

(** [a || b] on two optional strings. *)
Definition or_opt (a b : option string) : option string :=
  match a with
  | Some (String c r) => a
  | _ => b
  end.

(** A template literal prints a missing value as [undefined]. *)
Definition tpl (s : option string) : string := default "undefined" s.

(** [s.substring(0, n)], and [s?.substring(0, n)] on an optional string. *)
Definition substring0 (n : nat) (s : string) : string := String.substring 0 n s.

(** A string is truthy when it is present and not empty. *)
Definition truthy (s : option string) : bool :=
  match s with
  | Some (String _ _) => true
  | _ => false
  end.

(** ** Asynchronous functions and the network *)

Inductive outcome (A : Type) : Type :=
  | Returned (a : A)
  | Thrown.
Arguments Returned {A} a.
Arguments Thrown {A}.

#[global] Instance outcome_ret : MRet outcome := fun A a => Returned a.

#[global] Instance outcome_bind : MBind outcome := fun A B k m =>
  match m with
  | Returned a => k a
  | Thrown => Thrown
  end.

(** [try { m } catch (e) { h }]. *)
Definition try_catch {A} (m : outcome A) (h : outcome A) : outcome A :=
  match m with
  | Returned a => Returned a
  | Thrown => h
  end.

(** What one [fetch] call yields: the promise rejects, or it resolves to a
    response with its [ok] flag and its body; a body of [None] is one that
    [response.json()] or [response.text()] rejects. *)
Inductive fetch_result (B : Type) : Type :=
  | NetworkError
  | Response (ok : bool) (body : option B).
Arguments NetworkError {B}.
Arguments Response {B} ok body.

(** [await fetch(url)]. *)
Definition fetch {B} (r : fetch_result B) : outcome (bool * option B) :=
  match r with
  | NetworkError => Thrown
  | Response ok body => Returned (ok, body)
  end.

(** [await response.json()], [await response.text()]. *)
Definition read_body {B} (body : option B) : outcome B :=
  match body with
  | Some b => Returned b
  | None => Thrown
  end.

(** A request fails: the promise rejects, or the status is not ok. *)
Definition failed {B} (r : fetch_result B) : Prop :=
  match r with
  | NetworkError => True
  | Response ok _ => ok = false
  end.

(** ** Array.prototype.sort

    The sort is stable; with a consistent comparator its result is the
    stable sorted permutation, which insertion from the right computes.
    [cmp a b < 0] puts [a] first. *)
Section js_sort.
Context {A : Type} (cmp : A -> A -> Q).

Fixpoint sort_insert (x : A) (l : list A) : list A :=
  match l with
  | [] => [x]
  | y :: l' => if Qle_bool (cmp x y) 0 then x :: y :: l' else y :: sort_insert x l'
  end.

Fixpoint js_sort (l : list A) : list A :=
  match l with
  | [] => []
  | x :: l' => sort_insert x (js_sort l')
  end.

End js_sort.


(** ** Objects

    The view of a record as the object literal that builds it, for
    properties about which fields a record carries. *)
Inductive value : Type :=
  | VUndefined
  | VNull
  | VBool (b : bool)
  | VNum (q : Q)
  | VStr (s : string).

Definition object := list (string * value).


Definition VOptStr (s : option string) : value :=
  match s with Some s => VStr s | None => VUndefined end.

(** ** Hacker News (fetchHackerNews) *)
Module HackerNews.

(** One element of [data.hits]. *)
Record hit : Type := {
  hit_title : option string;
  story_text : option string;
  hit_url : option string;
  objectID : option string;
  hit_points : Q;
  created_at_i : Q;
  hit_author : option string;
  num_comments : Q
}.

Record search_response : Type := { hits : option (list hit) }.

Record story : Type := {
  title : option string;
  url : string;
  points : Q;
  pointsPerHour : Q;
  author : option string;
  comments : Q;
  ageHours : Q;
  isHot : bool
}.

Definition to_object (s : story) : object :=
  [ ("title", VOptStr (title s));
    ("url", VStr (url s));
    ("points", VNum (points s));
    ("pointsPerHour", VNum (pointsPerHour s));
    ("author", VOptStr (author s));
    ("comments", VNum (comments s));
    ("ageHours", VNum (ageHours s));
    ("isHot", VBool (isHot s)) ].

(** [Math.max(1, (now - item.created_at_i) / 3600)]. *)
Definition age_hours (now : Q) (item : hit) : Q :=
  Math_max 1 ((now - created_at_i item) / 3600).

(** The callback of [.map]. *)
Definition make_story (now : Q) (item : hit) : story :=
  let ageHours := age_hours now item in
  let pointsPerHour := hit_points item / ageHours in
  {| title := hit_title item;
     url := or_str (hit_url item)
              ("https://news.ycombinator.com/item?id=" +:+ tpl (objectID item));
     points := hit_points item;
     pointsPerHour := Math_round (pointsPerHour * 10) / 10;
     author := hit_author item;
     comments := num_comments item;
     ageHours := Math_round ageHours;
     isHot := gt pointsPerHour 20 |}.

Section fetcher.

(** [s.toLowerCase()] and [aiKeywords.test(s)]. *)
Variable toLowerCase : string -> string.
Variable aiKeywords_test : string -> bool.

Definition is_ai (item : hit) : bool :=
  aiKeywords_test
    (toLowerCase (or_str (hit_title item) EmptyString +:+ " "
                  +:+ or_str (story_text item) EmptyString)).

(** [aiStories.map(..)]: the stories before the sort. *)
Definition stories (now : Q) (data : search_response) : list story :=
  let aiStories := List.filter is_ai (default [] (hits data)) in
  map (make_story now) aiStories.

(** The body of the [try] block.  [Date_now] is the millisecond clock,
    read once the response body has arrived. *)
Definition fetchHackerNews_try (limit : nat) (Date_now : Z)
    (resp : fetch_result search_response) : outcome (list story) :=
  '(ok, body) ← fetch resp;
  if negb ok then Returned []
  else
    data ← read_body body;
    let now := inject_Z Date_now / 1000 in
    Returned (take limit
      (js_sort (fun a b => pointsPerHour b - pointsPerHour a) (stories now data))).

Definition fetchHackerNews (limit : nat) (Date_now : Z)
    (resp : fetch_result search_response) : outcome (list story) :=
  try_catch (fetchHackerNews_try limit Date_now resp) (Returned []).

End fetcher.

End HackerNews.

(** ** GitHub (fetchGitHubTrending) *)
Module GitHub.

(** One element of [data.data.rows] of the OSS Insight response.  [stars]
    holds [parseInt(repo.stars)], [None] standing for [NaN]. *)
Record row : Type := {
  repo_name : option string;
  row_description : option string;
  row_stars : option Z;
  primary_language : option string
}.

Record trending_body : Type := { rows : option (list row) }.

(** One element of [data.items] of the GitHub search response. *)
Record item : Type := {
  full_name : option string;
  item_description : option string;
  stargazers_count : Q;
  html_url : option string;
  item_language : option string
}.

Record search_body : Type := { items : option (list item) }.

Record repo : Type := {
  name : option string;
  description : string;
  stars : Q;
  starsToday : Q;
  url : option string;
  language : string;
  isHot : bool
}.

Definition to_object (r : repo) : object :=
  [ ("name", VOptStr (name r));
    ("description", VStr (description r));
    ("stars", VNum (stars r));
    ("starsToday", VNum (starsToday r));
    ("url", VOptStr (url r));
    ("language", VStr (language r));
    ("isHot", VBool (isHot r)) ].

(** [parseInt(repo.stars) || 0] and [parseInt(repo.stars) > 500]. *)
Definition parseInt_or0 (s : option Z) : Q :=
  match s with
  | Some n => or0 (inject_Z n)
  | None => 0
  end.

Definition parseInt_gt (s : option Z) (bound : Q) : bool :=
  match s with
  | Some n => gt (inject_Z n) bound
  | None => false
  end.

(** The object pushed for a row of the trending response. *)
Definition of_row (r : row) : repo :=
  {| name := repo_name r;
     description := or_str (substring0 120 <$> row_description r) "無描述";
     stars := parseInt_or0 (row_stars r);
     starsToday := parseInt_or0 (row_stars r);
     url := Some ("https://github.com/" +:+ tpl (repo_name r));
     language := or_str (primary_language r) "未知";
     isHot := parseInt_gt (row_stars r) 500 |}.

(** The object pushed for an item of a search response. *)
Definition of_item (i : item) : repo :=
  {| name := full_name i;
     description := or_str (substring0 120 <$> item_description i) "無描述";
     stars := stargazers_count i;
     starsToday := Math_round (stargazers_count i / 30);
     url := html_url i;
     language := or_str (item_language i) "未知";
     isHot := gt (stargazers_count i) 10000 |}.

(** [results.find(r => r.name === repo.full_name)] finds something. *)
Definition found (results : list repo) (i : item) : bool :=
  existsb (fun r => bool_decide (name r = full_name i)) results.

(** The loop over [data.items]. *)
Definition push_items (results : list repo) (l : list item) : list repo :=
  fold_left (fun results i => if found results i then results else results ++ [of_item i])
            l results.

Definition queries : list string :=
  [ "topic:llm stars:>1000";
    "topic:ai stars:>500 pushed:>2026-02-01";
    "(AI OR LLM OR GPT OR Claude) stars:>100" ].

Section fetcher.

(** [s.toLowerCase()], the two regular expressions of the filter, and
    [encodeURIComponent]. *)
Variable toLowerCase : string -> string.
Variable desc_match : string -> bool.
Variable name_match : string -> bool.
Variable encodeURIComponent : string -> string.

(** The responses: of the trending request, and of a search request by
    its URL. *)
Variable trending : fetch_result trending_body.
Variable search : string -> fetch_result search_body.

Definition is_ai (r : row) : bool :=
  let desc := toLowerCase (or_str (row_description r) EmptyString) in
  let name := toLowerCase (or_str (repo_name r) EmptyString) in
  desc_match desc || name_match name.

(** The inner [try] block (OSS Insight): what it pushes to [results]. *)
Definition trending_try (limit : nat) : outcome (list repo) :=
  '(ok, body) ← fetch trending;
  if (ok : bool) then
    data ← read_body body;
    let aiRepos := take limit (List.filter is_ai (default [] (rows data))) in
    Returned (map of_row aiRepos)
  else Returned [].

Definition search_url (q : string) : string :=
  "https://api.github.com/search/repositories?q=" +:+ encodeURIComponent q
    +:+ "&sort=stars&order=desc&per_page=5".

(** The loop over [queries]. *)
Fixpoint search_loop (limit : nat) (qs : list string) (results : list repo)
    : outcome (list repo) :=
  match qs with
  | [] => Returned results
  | q :: qs' =>
      if bool_decide (limit <= length results)%nat then Returned results
      else
        '(ok, body) ← fetch (search (search_url q));
        if (ok : bool) then
          data ← read_body body;
          search_loop limit qs' (push_items results (default [] (items data)))
        else search_loop limit qs' results
  end.

Definition fetchGitHubTrending_try (limit : nat) : outcome (list repo) :=
  let results := match trending_try limit with
                 | Returned l => l
                 | Thrown => []
                 end in
  results ←
    (if bool_decide (length results < limit)%nat
     then search_loop limit queries results
     else Returned results);
  Returned (take limit
    (js_sort (fun a b => or0 (starsToday b) - or0 (starsToday a)) results)).

Definition fetchGitHubTrending (limit : nat) : outcome (list repo) :=
  try_catch (fetchGitHubTrending_try limit) (Returned []).

End fetcher.

End GitHub.

(** ** Reddit (fetchReddit) *)
Module Reddit.

(** [p.data] of one element of [data.data.children]. *)
Record post_data : Type := {
  created_utc : Q;
  post_score : Q;
  post_title : string;
  permalink : option string;
  post_num_comments : Q;
  post_subreddit : option string
}.

Record listing : Type := { children : option (list post_data) }.

Record post : Type := {
  title : string;
  url : string;
  score : Q;
  scorePerHour : Q;
  comments : Q;
  subreddit : option string;
  ageHours : Q;
  isHot : bool
}.

Definition to_object (p : post) : object :=
  [ ("title", VStr (title p));
    ("url", VStr (url p));
    ("score", VNum (score p));
    ("scorePerHour", VNum (scorePerHour p));
    ("comments", VNum (comments p));
    ("subreddit", VOptStr (subreddit p));
    ("ageHours", VNum (ageHours p));
    ("isHot", VBool (isHot p)) ].

Definition subreddits : list string :=
  [ "MachineLearning"; "LocalLLaMA"; "artificial"; "ChatGPT"; "ClaudeAI" ].

(** The callback of [.filter]: created within the last 24 hours. *)
Definition recent (now : Q) (p : post_data) : bool :=
  lt (now - created_utc p) 86400.

(** [Math.max(1, (now - p.data.created_utc) / 3600)]. *)
Definition age_hours (now : Q) (p : post_data) : Q :=
  Math_max 1 ((now - created_utc p) / 3600).

(** The callback of [.map]. *)
Definition make_post (now : Q) (p : post_data) : post :=
  let ageHours := age_hours now p in
  let scorePerHour := post_score p / ageHours in
  {| title := substring0 100 (post_title p);
     url := "https://reddit.com" +:+ tpl (permalink p);
     score := post_score p;
     scorePerHour := Math_round (scorePerHour * 10) / 10;
     comments := post_num_comments p;
     subreddit := post_subreddit p;
     ageHours := Math_round ageHours;
     isHot := gt scorePerHour 50 |}.

Definition hot_url (sub : string) : string :=
  "https://www.reddit.com/r/" +:+ sub +:+ "/hot.json?limit=15".

Section fetcher.

(** The response of a request, by its URL. *)
Variable net : string -> fetch_result listing.

(** The loop over [subreddits]. *)
Fixpoint sub_loop (now : Q) (subs : list string) (allPosts : list post)
    : outcome (list post) :=
  match subs with
  | [] => Returned allPosts
  | sub :: subs' =>
      '(ok, body) ← fetch (net (hot_url sub));
      if (ok : bool) then
        data ← read_body body;
        let posts := map (make_post now) (List.filter (recent now) (default [] (children data))) in
        sub_loop now subs' (allPosts ++ posts)
      else sub_loop now subs' allPosts
  end.

(** [Date_now] is the millisecond clock, read before the first request. *)
Definition fetchReddit_try (limit : nat) (Date_now : Z) : outcome (list post) :=
  let now := inject_Z Date_now / 1000 in
  allPosts ← sub_loop now subreddits [];
  Returned (take limit
    (js_sort (fun a b => scorePerHour b - scorePerHour a) allPosts)).

Definition fetchReddit (limit : nat) (Date_now : Z) : outcome (list post) :=
  try_catch (fetchReddit_try limit Date_now) (Returned []).

End fetcher.

End Reddit.

(** ** arXiv (fetchArxiv) *)
Module Arxiv.

(** The Atom feed is read with regular expressions; an [entry] holds what
    they extract from one [<entry>] element: the trimmed captures, the
    [published] date as the millisecond value of [new Date(published)]
    ([None] when the tag is missing or the date invalid), and the first
    three author names joined by a comma. *)
Record entry : Type := {
  entry_title : option string;
  entry_summary : option string;
  link : option string;
  published : option Z;
  entry_authors : option string
}.

Record paper : Type := {
  title : string;
  summary : string;
  url : string;
  authors : string;
  hoursAgo : Q;
  isNew : bool
}.

Definition to_object (p : paper) : object :=
  [ ("title", VStr (title p));
    ("summary", VStr (summary p));
    ("url", VStr (url p));
    ("authors", VStr (authors p));
    ("hoursAgo", VNum (hoursAgo p));
    ("isNew", VBool (isNew p)) ].

(** [(now - pubDate) / (1000 * 60 * 60)]. *)
Definition hours_ago (now : Z) (pubDate : Z) : Q :=
  (inject_Z now - inject_Z pubDate) / (1000 * 60 * 60).

Definition make_paper (e : entry) (hoursAgo : Q) : paper :=
  {| title := substring0 100 (default EmptyString (entry_title e));
     summary := tpl (substring0 150 <$> entry_summary e) +:+ "...";
     url := default EmptyString (link e);
     authors := or_str (entry_authors e) "未知";
     hoursAgo := Math_round hoursAgo;
     isNew := le hoursAgo 24 |}.

(** The object an entry gets pushed, if any: the entry needs a title and
    a link, and a date within the last 48 hours. *)
Definition candidate (now : Z) (e : entry) : option paper :=
  if truthy (entry_title e) && truthy (link e) then
    match published e with
    | Some pubDate =>
        let hoursAgo := hours_ago now pubDate in
        if le hoursAgo 48 then Some (make_paper e hoursAgo) else None
    | None => None
    end
  else None.

(** One turn of the loop body up to the [break] test. *)
Definition visit (now : Z) (e : entry) (papers : list paper) : list paper :=
  match candidate now e with
  | Some p => papers ++ [p]
  | None => papers
  end.


(** The loop over [entries]. *)
Fixpoint entry_loop (limit : nat) (now : Z) (entries : list entry)
    (papers : list paper) : list paper :=
  match entries with
  | [] => papers
  | e :: entries' =>
      let papers := visit now e papers in
      if bool_decide (limit <= length papers)%nat then papers
      else entry_loop limit now entries' papers
  end.

(** [now] is the millisecond value of [new Date()]. *)
Definition fetchArxiv_try (limit : nat) (now : Z)
    (resp : fetch_result (list entry)) : outcome (list paper) :=
  '(ok, body) ← fetch resp;
  if negb ok then Returned []
  else
    entries ← read_body body;
    Returned (entry_loop limit now entries []).

Definition fetchArxiv (limit : nat) (now : Z)
    (resp : fetch_result (list entry)) : outcome (list paper) :=
  try_catch (fetchArxiv_try limit now resp) (Returned []).

End Arxiv.

(** ** Hugging Face (fetchHuggingFace) *)
Module HuggingFace.

Record model : Type := {
  tags : option (list string);
  modelId : option string;
  model_id : option string;
  model_likes : option Q;
  model_likes7d : option Q;
  model_downloads : option Q
}.

Record space : Type := {
  space_id : option string;
  space_likes : option Q;
  space_likes7d : option Q
}.

(** [downloads] is [null] for a space. *)
Record entry : Type := {
  type : string;
  name : option string;
  url : string;
  likes : Q;
  likes7d : Q;
  downloads : option Q;
  isHot : bool
}.

Definition to_object (e : entry) : object :=
  [ ("type", VStr (type e));
    ("name", VOptStr (name e));
    ("url", VStr (url e));
    ("likes", VNum (likes e));
    ("likes7d", VNum (likes7d e));
    ("downloads", match downloads e with Some d => VNum d | None => VNull end);
    ("isHot", VBool (isHot e)) ].

Definition generation_tags : list string :=
  [ "text-generation"; "text2text-generation"; "conversational"; "image-to-text" ].

Definition of_model (m : model) : entry :=
  {| type := "🤖 Model";
     name := or_opt (modelId m) (model_id m);
     url := "https://huggingface.co/" +:+ tpl (or_opt (modelId m) (model_id m));
     likes := opt_or0 (model_likes m);
     likes7d := opt_or0 (model_likes7d m);
     downloads := Some (opt_or0 (model_downloads m));
     isHot := gt (opt_or0 (model_likes7d m)) 100 |}.

Definition of_space (s : space) : entry :=
  {| type := "🚀 Space";
     name := space_id s;
     url := "https://huggingface.co/spaces/" +:+ tpl (space_id s);
     likes := opt_or0 (space_likes s);
     likes7d := opt_or0 (space_likes7d s);
     downloads := None;
     isHot := gt (opt_or0 (space_likes7d s)) 50 |}.

Section fetcher.

(** [s.toLowerCase()] and the regular expression on the model id. *)
Variable toLowerCase : string -> string.
Variable id_match : string -> bool.

Definition is_ai (m : model) : bool :=
  let tags := default [] (tags m) in
  let id := toLowerCase (default EmptyString
              (or_opt (or_opt (modelId m) (model_id m)) (Some EmptyString))) in
  existsb (fun t => bool_decide (t ∈ generation_tags)) tags || id_match id.

(** The part run when [modelsRes.ok], and the part run when
    [spacesRes.ok]; each returns the new [results]. *)
Definition add_models (body : option (list model)) (results : list entry)
    : outcome (list entry) :=
  models ← read_body body;
  let aiModels := List.filter is_ai models in
  Returned (results ++ map of_model (take 4 aiModels)).

Definition add_spaces (body : option (list space)) (results : list entry)
    : outcome (list entry) :=
  spaces ← read_body body;
  Returned (results ++ map of_space (take 3 spaces)).

Definition fetchHuggingFace_try (limit : nat)
    (models : fetch_result (list model)) (spaces : fetch_result (list space))
    : outcome (list entry) :=
  (* Promise.all of the two requests *)
  '(models_ok, models_body) ← fetch models;
  '(spaces_ok, spaces_body) ← fetch spaces;
  results ← (if (models_ok : bool) then add_models models_body [] else Returned []);
  results ← (if (spaces_ok : bool) then add_spaces spaces_body results else Returned results);
  Returned (take limit
    (js_sort (fun a b => or0 (likes7d b) - or0 (likes7d a)) results)).

Definition fetchHuggingFace (limit : nat)
    (models : fetch_result (list model)) (spaces : fetch_result (list space))
    : outcome (list entry) :=
  try_catch (fetchHuggingFace_try limit models spaces) (Returned []).

End fetcher.

End HuggingFace.

(** ** Product Hunt (fetchProductHunt) *)
Module ProductHunt.

(** The RSS feed is read with regular expressions; an [item] holds what
    they extract from one [<item>] element: the title and description
    captures (the CDATA form first, else the plain one), the link, and the
    [pubDate] as the millisecond value of [new Date(pubDate)], [None] when
    the tag is missing. *)
Record item : Type := {
  item_title : option string;
  item_link : option string;
  pubDate : option Z;
  desc : option string
}.

Record product : Type := {
  title : string;
  description : string;
  url : string;
  hoursAgo : Q;
  isNew : bool
}.

Definition to_object (p : product) : object :=
  [ ("title", VStr (title p));
    ("description", VStr (description p));
    ("url", VStr (url p));
    ("hoursAgo", VNum (hoursAgo p));
    ("isNew", VBool (isNew p)) ].

Definition sources : list string :=
  [ "https://www.producthunt.com/feed?category=artificial-intelligence";
    "https://www.producthunt.com/topics/artificial-intelligence/feed" ].

Section fetcher.

(** [s.replace(/<[^>]*>/g, '')]. *)
Variable strip_tags : string -> string.

(** The response of a request, by its URL. *)
Variable net : string -> fetch_result (list item).

(** The callback of [.map]. *)
Definition make_product (now : Z) (i : item) : product :=
  let pub := default now (pubDate i) in
  let hoursAgo := Math_round ((inject_Z now - inject_Z pub) / (1000 * 60 * 60)) in
  {| title := or_str (substring0 80 <$> item_title i) "未知";
     description := or_str ((fun d => substring0 100 (strip_tags d)) <$> desc i) EmptyString;
     url := or_str (item_link i) EmptyString;
     hoursAgo := hoursAgo;
     isNew := le hoursAgo 24 |}.

(** One turn of the loop over [sources]: [Some l] when the turn returns
    [l] from the function, [None] when the loop goes on. *)
Definition try_source (limit : nat) (now : Z) (feedUrl : string)
    : outcome (option (list product)) :=
  '(ok, body) ← fetch (net feedUrl);
  if (ok : bool) then
    items ← read_body body;
    if bool_decide (0 < length items)%nat then
      Returned (Some (List.filter (fun p => truthy (Some (url p)))
                        (map (make_product now) (take limit items))))
    else Returned None
  else Returned None.

(** [now] is the millisecond value of [new Date()], read once the feed
    text has arrived. *)
Fixpoint source_loop (limit : nat) (now : Z) (feeds : list string) : list product :=
  match feeds with
  | [] => []
  | feedUrl :: feeds' =>
      match try_source limit now feedUrl with
      | Returned (Some l) => l
      | Returned None | Thrown => source_loop limit now feeds'
      end
  end.

Definition fetchProductHunt (limit : nat) (now : Z) : outcome (list product) :=
  try_catch (Returned (source_loop limit now sources)) (Returned []).

End fetcher.

End ProductHunt.

(** ** The report (generateTrendReport) *)

Record report : Type := {
  date : string;
  time : string;
  github : list GitHub.repo;
  hackerNews : list HackerNews.story;
  reddit : list Reddit.post;
  arxiv : list Arxiv.paper;
  huggingface : list HuggingFace.entry;
  productHunt : list ProductHunt.product
}.

(** The string functions of the platform that the fetchers use. *)
Record string_lib : Type := {
  toLowerCase : string -> string;
  encodeURIComponent : string -> string;
  github_desc_match : string -> bool;
  github_name_match : string -> bool;
  hn_aiKeywords_test : string -> bool;
  hf_id_match : string -> bool;
  strip_tags : string -> string
}.

(** Everything one report generation reads from outside: the responses
    of the requests, the clock values the fetchers read, and the date and
    time as [toLocaleDateString] and [toLocaleTimeString] print them. *)
Record world : Type := {
  w_date : string;
  w_time : string;
  github_trending : fetch_result GitHub.trending_body;
  github_search : string -> fetch_result GitHub.search_body;
  hn_response : fetch_result HackerNews.search_response;
  hn_now : Z;
  reddit_net : string -> fetch_result Reddit.listing;
  reddit_now : Z;
  arxiv_response : fetch_result (list Arxiv.entry);
  arxiv_now : Z;
  hf_models : fetch_result (list HuggingFace.model);
  hf_spaces : fetch_result (list HuggingFace.space);
  ph_net : string -> fetch_result (list ProductHunt.item);
  ph_now : Z
}.

Section report.

Variable lib : string_lib.
Variable w : world.

(** The six fetchers, each on its part of the world. *)
Definition fetchGitHubTrending (limit : nat) : outcome (list GitHub.repo) :=
  GitHub.fetchGitHubTrending (toLowerCase lib) (github_desc_match lib)
    (github_name_match lib) (encodeURIComponent lib)
    (github_trending w) (github_search w) limit.

Definition fetchHackerNews (limit : nat) : outcome (list HackerNews.story) :=
  HackerNews.fetchHackerNews (toLowerCase lib) (hn_aiKeywords_test lib)
    limit (hn_now w) (hn_response w).

Definition fetchReddit (limit : nat) : outcome (list Reddit.post) :=
  Reddit.fetchReddit (reddit_net w) limit (reddit_now w).

Definition fetchArxiv (limit : nat) : outcome (list Arxiv.paper) :=
  Arxiv.fetchArxiv limit (arxiv_now w) (arxiv_response w).

Definition fetchHuggingFace (limit : nat) : outcome (list HuggingFace.entry) :=
  HuggingFace.fetchHuggingFace (toLowerCase lib) (hf_id_match lib)
    limit (hf_models w) (hf_spaces w).

Definition fetchProductHunt (limit : nat) : outcome (list ProductHunt.product) :=
  ProductHunt.fetchProductHunt (strip_tags lib) (ph_net w) limit (ph_now w).

(** [Promise.all] rejects as soon as one of the six promises rejects. *)
Definition generateTrendReport : outcome report :=
  github ← fetchGitHubTrending 6;
  hackerNews ← fetchHackerNews 6;
  reddit ← fetchReddit 5;
  arxiv ← fetchArxiv 4;
  huggingface ← fetchHuggingFace 5;
  productHunt ← fetchProductHunt 3;
  Returned {| date := w_date w; time := w_time w;
              github := github; hackerNews := hackerNews; reddit := reddit;
              arxiv := arxiv; huggingface := huggingface;
              productHunt := productHunt |}.

End report.

(** Every request of a source fails. *)
Definition github_down (lib : string_lib) (w : world) : Prop :=
  failed (github_trending w) /\
  forall q, q ∈ GitHub.queries ->
    failed (github_search w (GitHub.search_url (encodeURIComponent lib) q)).

Definition hn_down (w : world) : Prop := failed (hn_response w).

Definition reddit_down (w : world) : Prop :=
  forall sub, sub ∈ Reddit.subreddits -> failed (reddit_net w (Reddit.hot_url sub)).

Definition arxiv_down (w : world) : Prop := failed (arxiv_response w).

Definition hf_down (w : world) : Prop := failed (hf_models w) /\ failed (hf_spaces w).

Definition ph_down (w : world) : Prop :=
  forall u, u ∈ ProductHunt.sources -> failed (ph_net w u).

(** ** Rendering (createReportEmbeds) *)

(** What the [EmbedBuilder] calls set. *)
Record embed : Type := {
  color : Z;
  embed_title : string;
  embed_description : string;
  footer : option string;
  timestamp : bool
}.

Definition nl : string := String (Ascii.ascii_of_nat 10) EmptyString.

(** [parts.join(sep)]. *)
Fixpoint join (sep : string) (parts : list string) : string :=
  match parts with
  | [] => EmptyString
  | [p] => p
  | p :: rest => p +:+ sep +:+ join sep rest
  end.

Section render.

(** How a number prints in a template literal, and through
    [toLocaleString()]. *)
Variable show : Q -> string.
Variable toLocaleString : Q -> string.

(** [`${x || '?'}`] on a number. *)
Definition show_or_unknown (x : Q) : string :=
  if Qeq_bool x 0 then "?" else show x.

Definition flag (b : bool) (s : string) : string := if b then s else EmptyString.

(** [list.map((x, i) => line(x, i)).join('\n\n')], [i + 1] printed. *)
Definition numbered {A} (line : string -> A -> string) (l : list A) : string :=
  join (nl +:+ nl) (imap (fun i x => line (show (inject_Z (Z.of_nat i) + 1)) x) l).

(** A repository record has no [isNew] field: that flag prints nothing. *)
Definition github_line (n : string) (repo : GitHub.repo) : string :=
  "**" +:+ n +:+ ". [" +:+ tpl (GitHub.name repo) +:+ "](" +:+ tpl (GitHub.url repo) +:+ ")**"
  +:+ flag false " 🆕 新項目" +:+ flag (GitHub.isHot repo) " 🔥" +:+ nl
  +:+ "📈 **+" +:+ show_or_unknown (GitHub.starsToday repo) +:+ " today** | ⭐ "
  +:+ toLocaleString (GitHub.stars repo) +:+ " total | " +:+ GitHub.language repo +:+ nl
  +:+ GitHub.description repo.

Definition hn_line (n : string) (item : HackerNews.story) : string :=
  "**" +:+ n +:+ ". [" +:+ tpl (HackerNews.title item) +:+ "](" +:+ HackerNews.url item +:+ ")**"
  +:+ flag (HackerNews.isHot item) " 🔥" +:+ nl
  +:+ "📈 **" +:+ show (HackerNews.pointsPerHour item) +:+ " pts/hr** | 👍 "
  +:+ show (HackerNews.points item) +:+ " | 💬 " +:+ show (HackerNews.comments item)
  +:+ " | " +:+ show (HackerNews.ageHours item) +:+ "h ago".

Definition reddit_line (n : string) (post : Reddit.post) : string :=
  "**" +:+ n +:+ ". [" +:+ Reddit.title post +:+ "](" +:+ Reddit.url post +:+ ")**"
  +:+ flag (Reddit.isHot post) " 🔥" +:+ nl
  +:+ "📈 **" +:+ show (Reddit.scorePerHour post) +:+ " pts/hr** | ⬆️ "
  +:+ show (Reddit.score post) +:+ " | 💬 " +:+ show (Reddit.comments post)
  +:+ " | r/" +:+ tpl (Reddit.subreddit post).

Definition arxiv_line (n : string) (paper : Arxiv.paper) : string :=
  "**" +:+ n +:+ ". [" +:+ Arxiv.title paper +:+ "](" +:+ Arxiv.url paper +:+ ")**"
  +:+ flag (Arxiv.isNew paper) " 🆕" +:+ nl
  +:+ "⏰ " +:+ show (Arxiv.hoursAgo paper) +:+ "h ago | 👤 " +:+ Arxiv.authors paper +:+ nl
  +:+ Arxiv.summary paper.

Definition hf_line (n : string) (item : HuggingFace.entry) : string :=
  "**" +:+ n +:+ ". " +:+ HuggingFace.type item +:+ " [" +:+ tpl (HuggingFace.name item)
  +:+ "](" +:+ HuggingFace.url item +:+ ")**" +:+ flag (HuggingFace.isHot item) " 🔥" +:+ nl
  +:+ "📈 **+" +:+ show_or_unknown (HuggingFace.likes7d item) +:+ " likes/7d** | ❤️ "
  +:+ show (HuggingFace.likes item) +:+ " total"
  +:+ match HuggingFace.downloads item with
      | Some d => if Qeq_bool d 0 then EmptyString else " | ⬇️ " +:+ toLocaleString d
      | None => EmptyString
      end.

Definition ph_line (n : string) (p : ProductHunt.product) : string :=
  "**" +:+ n +:+ ". [" +:+ ProductHunt.title p +:+ "](" +:+ ProductHunt.url p +:+ ")**"
  +:+ flag (ProductHunt.isNew p) " 🆕" +:+ nl
  +:+ "⏰ " +:+ show (ProductHunt.hoursAgo p) +:+ "h ago"
  +:+ match ProductHunt.description p with
      | EmptyString => EmptyString
      | d => nl +:+ d
      end.

Definition title_embed (r : report) : embed :=
  {| color := 0x00AE86;
     embed_title := "📰 AI 全球趨勢報告 (24hr 增速排行)";
     embed_description := "📅 " +:+ date r +:+ " " +:+ time r +:+ nl +:+ nl
       +:+ "*以下依據「增速」排序，優先顯示成長最快的內容*";
     footer := None;
     timestamp := true |}.

Definition github_embed (r : report) : embed :=
  {| color := 0x24292e;
     embed_title := "⭐ GitHub 趨勢 (今日 Stars 增量)";
     embed_description := numbered github_line (github r);
     footer := Some "排序依據：24hr 內 Stars 增量";
     timestamp := false |}.

Definition hn_embed (r : report) : embed :=
  {| color := 0xFF6600;
     embed_title := "🔥 Hacker News (熱度增速)";
     embed_description := numbered hn_line (hackerNews r);
     footer := Some "排序依據：Points per Hour";
     timestamp := false |}.

Definition reddit_embed (r : report) : embed :=
  {| color := 0xFF4500;
     embed_title := "💬 Reddit (熱度增速)";
     embed_description := numbered reddit_line (reddit r);
     footer := Some "排序依據：Score per Hour";
     timestamp := false |}.

Definition arxiv_embed (r : report) : embed :=
  {| color := 0xB31B1B;
     embed_title := "📄 arXiv 最新論文";
     embed_description := numbered arxiv_line (arxiv r);
     footer := Some "排序依據：最新提交時間";
     timestamp := false |}.

Definition hf_embed (r : report) : embed :=
  {| color := 0xFFD21E;
     embed_title := "🤗 Hugging Face (7 天增速)";
     embed_description := numbered hf_line (huggingface r);
     footer := Some "排序依據：7 天內 Likes 增量";
     timestamp := false |}.

Definition ph_embed (r : report) : embed :=
  {| color := 0xDA552F;
     embed_title := "🚀 Product Hunt AI 新品";
     embed_description := numbered ph_line (productHunt r);
     footer := Some "Product Hunt AI Category";
     timestamp := false |}.

(** [if (list.length > 0) embeds.push(e)]. *)
Definition push_if_any {A} (l : list A) (e : embed) (embeds : list embed) : list embed :=
  if bool_decide (0 < length l)%nat then embeds ++ [e] else embeds.

Definition createReportEmbeds (r : report) : list embed :=
  let embeds := [] ++ [title_embed r] in
  let embeds := push_if_any (github r) (github_embed r) embeds in
  let embeds := push_if_any (hackerNews r) (hn_embed r) embeds in
  let embeds := push_if_any (reddit r) (reddit_embed r) embeds in
  let embeds := push_if_any (arxiv r) (arxiv_embed r) embeds in
  let embeds := push_if_any (huggingface r) (hf_embed r) embeds in
  let embeds := push_if_any (productHunt r) (ph_embed r) embeds in
  embeds.

End render.

(** ** Sending (pushReport) *)

(** [embeds.slice(i, j)]. *)
Definition slice {A} (i j : nat) (l : list A) : list A := take (j - i) (drop i l).

(** The [for (let i = 0; i < embeds.length; i += 10)] loop: the argument
    of each [target.send] call, in order.  [None] when [fuel] turns do not
    reach the end of the loop. *)
Fixpoint send_loop {A} (fuel : nat) (i : nat) (embeds : list A) : option (list (list A)) :=
  if bool_decide (i < length embeds)%nat then
    match fuel with
    | O => None
    | S fuel' => cons (slice i (i + 10) embeds) <$> send_loop fuel' (i + 10) embeds
    end
  else Some [].

Definition send_batches {A} (embeds : list A) : option (list (list A)) :=
  send_loop (length embeds) 0 embeds.

(** ** The schedule (checkScheduledPush) *)

Record schedule : Type := { sched_hour : nat; sched_minute : nat }.

Definition PUSH_SCHEDULE : list schedule :=
  [ {| sched_hour := 8; sched_minute := 0 |};
    {| sched_hour := 20; sched_minute := 0 |} ].

(** A [Set] of strings: its elements in insertion order, which is the
    order [Array.from] lists them in. *)
Definition string_set := list string.

Definition set_has (k : string) (s : string_set) : bool := bool_decide (k ∈ s).

Definition set_add (k : string) (s : string_set) : string_set :=
  if set_has k s then s else s ++ [k].

Definition set_delete (k : string) (s : string_set) : string_set :=
  List.filter (fun x => negb (String.eqb x k)) s.

(** What a run of [checkScheduledPush] reads from the clock: the date
    part of [taipeiTime.toISOString()], [getHours()], [getMinutes()]. *)
Record clock : Type := { dateStr : string; hour : nat; minute : nat }.

(** [`${dateStr}-${hour}`]. *)
Definition slot_key (dateStr : string) (hour : nat) : string :=
  dateStr +:+ "-" +:+ pretty hour.

(** The trimming of [pushedSlots] once it holds more than ten keys. *)
Definition trim (pushedSlots : string_set) : string_set :=
  if bool_decide (10 < length pushedSlots)%nat then
    let arr := pushedSlots in
    fold_left (fun s k => set_delete k s) (take (length arr - 10) arr) pushedSlots
  else pushedSlots.

(** The loop over [PUSH_SCHEDULE].  The result is the new [pushedSlots]
    and, when the run starts a push round, the slot key of the round. *)
Fixpoint schedule_loop (scheds : list schedule) (now : clock)
    (pushedSlots : string_set) : string_set * option string :=
  match scheds with
  | [] => (pushedSlots, None)
  | sched :: scheds' =>
      if bool_decide (hour now = sched_hour sched) && bool_decide (minute now = sched_minute sched)
      then
        let slotKey := slot_key (dateStr now) (hour now) in
        if set_has slotKey pushedSlots then (pushedSlots, None)
        else (trim (set_add slotKey pushedSlots), Some slotKey)
      else schedule_loop scheds' now pushedSlots
  end.

Definition checkScheduledPush (now : clock) (pushedSlots : string_set)
    : string_set * option string :=
  schedule_loop PUSH_SCHEDULE now pushedSlots.

(** The timer calls [checkScheduledPush] again and again: the final
    [pushedSlots] and, for each call, the round it started if any. *)
Fixpoint run_schedule (ticks : list clock) (pushedSlots : string_set)
    : string_set * list (option string) :=
  match ticks with
  | [] => (pushedSlots, [])
  | now :: ticks' =>
      let '(pushedSlots, round) := checkScheduledPush now pushedSlots in
      let '(final, rounds) := run_schedule ticks' pushedSlots in
      (final, round :: rounds)
  end.

(** ** Commands (handleMessage) *)

Record subscription : Type := { channelId : string; enabled : bool }.

Record message : Type := {
  id : string;
  author_id : string;
  author_bot : bool;
  channel_id : string;
  is_dm : bool;
  mentions_client : bool;
  content : string
}.

(** What [handleMessage] does besides updating [subscribers]. *)
Inductive action : Type :=
  | ReplyHelp
  | PushReport (channel : string)
  | ReplyGitHub
  | ReplyHackerNews
  | ReplyReddit
  | ReplyArxiv
  | ReplyHuggingFace
  | ReplySubscribed
  | ReplyUnsubscribed
  | ReplyStatus (subscribed : bool) (count : nat)
  | ReplyIntro.

Definition is_one_of (cmd : string) (names : list string) : bool :=
  bool_decide (cmd ∈ names).

Section commands.

(** [content.toLowerCase().trim()]. *)
Variable normalize : string -> string.

Definition handleMessage (subscribers : gmap string subscription)
    (message : message) (content : string)
    : gmap string subscription * action :=
  let cmd := normalize content in
  if is_one_of cmd ["!help"; "help"; "幫助"] then (subscribers, ReplyHelp)
  else if is_one_of cmd ["!news"; "!today"; "報告"; "趨勢"] then
    (subscribers, PushReport (channel_id message))
  else if is_one_of cmd ["!github"] then (subscribers, ReplyGitHub)
  else if is_one_of cmd ["!hn"; "!hackernews"] then (subscribers, ReplyHackerNews)
  else if is_one_of cmd ["!reddit"] then (subscribers, ReplyReddit)
  else if is_one_of cmd ["!arxiv"; "!paper"] then (subscribers, ReplyArxiv)
  else if is_one_of cmd ["!hf"; "!huggingface"] then (subscribers, ReplyHuggingFace)
  else if is_one_of cmd ["!subscribe"; "訂閱"] then
    (<[author_id message := {| channelId := channel_id message; enabled := true |}]> subscribers,
     ReplySubscribed)
  else if is_one_of cmd ["!unsubscribe"; "取消訂閱"] then
    (delete (author_id message) subscribers, ReplyUnsubscribed)
  else if is_one_of cmd ["!status"; "狀態"] then
    (subscribers,
     ReplyStatus (default false (enabled <$> subscribers !! author_id message))
                 (size subscribers))
  else (subscribers, ReplyIntro).

(** ** Events (the MessageCreate handler) *)

Definition DEDUP_TIMEOUT : Z := 10000.

(** The state the handlers share: the subscriber map, the de-duplication
    set, and the pending [setTimeout] callbacks, each with the time it
    falls due at and the key it deletes. *)
Record bot_state : Type := {
  subscribers : gmap string subscription;
  processedMessages : gset string;
  timers : list (Z * string)
}.

Definition initial_state : bot_state :=
  {| subscribers := ∅; processedMessages := ∅; timers := [] |}.

(** [message.content.replace(/<@!?\d+>/g, '').trim()]. *)
Variable strip_mentions : string -> string.

(** The handler at clock value [t] (milliseconds): the new state and the
    action of [handleMessage] when it is invoked. *)
Definition on_message (t : Z) (message : message) (st : bot_state)
    : bot_state * option action :=
  if author_bot message then (st, None)
  else
    let msgKey := id message in
    if bool_decide (msgKey ∈ processedMessages st) then (st, None)
    else
      let st := {| subscribers := subscribers st;
                   processedMessages := {[ msgKey ]} ∪ processedMessages st;
                   timers := timers st ++ [((t + DEDUP_TIMEOUT)%Z, msgKey)] |} in
      if is_dm message || mentions_client message then
        let content := strip_mentions (content message) in
        let '(subs, act) := handleMessage (subscribers st) message content in
        ({| subscribers := subs;
            processedMessages := processedMessages st;
            timers := timers st |}, Some act)
      else (st, None).

(** The callback of the [n]-th pending timer runs at clock value [t]: it
    deletes its key.  A timer does not run before it has fallen due. *)
Definition on_timeout (t : Z) (n : nat) (st : bot_state) : bot_state :=
  match timers st !! n with
  | Some (due, msgKey) =>
      if bool_decide (due <= t)%Z then
        {| subscribers := subscribers st;
           processedMessages := processedMessages st ∖ {[ msgKey ]};
           timers := delete n (timers st) |}
      else st
  | None => st
  end.

(** What the event loop dispatches: a message event, or the callback of
    a pending timer; each with the clock value at that moment. *)
Inductive event : Type :=
  | MessageCreate (t : Z) (message : message)
  | TimerFires (t : Z) (n : nat).

Definition event_time (e : event) : Z :=
  match e with
  | MessageCreate t _ => t
  | TimerFires t _ => t
  end.

Definition dispatch (e : event) (st : bot_state) : bot_state * option action :=
  match e with
  | MessageCreate t message => on_message t message st
  | TimerFires t n => (on_timeout t n st, None)
  end.

(** The event loop on a sequence of events: the final state and, for
    each event, the action of [handleMessage] when it was invoked. *)
Fixpoint run_events (evs : list event) (st : bot_state)
    : bot_state * list (option action) :=
  match evs with
  | [] => (st, [])
  | e :: evs' =>
      let '(st, act) := dispatch e st in
      let '(final, acts) := run_events evs' st in
      (final, act :: acts)
  end.

End commands.

(** The clock never goes back along a sequence of events. *)
Definition chronological (evs : list event) : Prop :=
  forall i j e1 e2, (i <= j)%nat -> evs !! i = Some e1 -> evs !! j = Some e2 ->
    (event_time e1 <= event_time e2)%Z.


(** ** Vocabulary of the properties *)

(** Where a repository record comes from. *)
Definition github_origin (r : GitHub.repo) : Prop :=
  (exists row, r = GitHub.of_row row) \/ (exists i, r = GitHub.of_item i).

(** Where a post record comes from: a post of a listing that was read,
    created less than 24 hours before [now]. *)
Definition reddit_origin (net : string -> fetch_result Reddit.listing) (now : Q)
    (p : Reddit.post) : Prop :=
  exists sub data d,
    sub ∈ Reddit.subreddits /\
    net (Reddit.hot_url sub) = Response true (Some data) /\
    d ∈ default [] (Reddit.children data) /\
    now - Reddit.created_utc d < 86400 /\
    p = Reddit.make_post now d.

(** Where a Hugging Face record comes from. *)
Definition hf_origin (e : HuggingFace.entry) : Prop :=
  (exists m, e = HuggingFace.of_model m) \/ (exists s, e = HuggingFace.of_space s).


(** A run of the scheduler falls on a scheduled time. *)
Definition on_schedule (now : clock) : Prop :=
  minute now = 0%nat /\ (hour now = 8%nat \/ hour now = 20%nat).

(** The keys of the rounds that a sequence of runs started, in order. *)
Definition started (rounds : list (option string)) : list string :=
  omap (fun round => round) rounds.

(** The last [n] elements of a list. *)
Definition last_n {A} (n : nat) (l : list A) : list A := drop (length l - n) l.

(** A date-and-hour slot that the runs have left does not come back, as
    with a clock that never goes back. *)
Definition slots_do_not_return (ticks : list clock) : Prop :=
  forall i j l a b c, (i <= l <= j)%nat ->
    ticks !! i = Some a -> ticks !! l = Some b -> ticks !! j = Some c ->
    dateStr c = dateStr a -> hour c = hour a ->
    dateStr b = dateStr a /\ hour b = hour a.

(** Every pending timer is the only one for its key, and its key is in
    the de-duplication set. *)
Definition timers_inv (st : bot_state) : Prop :=
  NoDup (map snd (timers st)) /\
  forall tm, tm ∈ timers st -> snd tm ∈ processedMessages st.

(** ** Sample data

    One concrete outside world, used to run the functions above on.  The
    stand-ins for the string functions leave a text as it is and accept
    every text. *)

Definition sample_lib : string_lib :=
  {| toLowerCase := fun s => s;
     encodeURIComponent := fun s => s;
     github_desc_match := fun _ => true;
     github_name_match := fun _ => true;
     hn_aiKeywords_test := fun _ => true;
     hf_id_match := fun _ => true;
     strip_tags := fun s => s |}.

(** 2026-03-01T00:00:00Z in milliseconds. *)
Definition sample_now : Z := 1772323200000.

Definition hours_before (h : Z) : Z := (sample_now - h * 3600000)%Z.

Definition sample_rows : list GitHub.row :=
  [ {| GitHub.repo_name := Some "acme/agent-kit";
       GitHub.row_description := Some "An AI agent toolkit";
       GitHub.row_stars := Some 120%Z;
       GitHub.primary_language := Some "TypeScript" |};
    {| GitHub.repo_name := Some "acme/llm-bench";
       GitHub.row_description := None;
       GitHub.row_stars := Some 730%Z;
       GitHub.primary_language := None |} ].

Definition sample_hits : list HackerNews.hit :=
  [ {| HackerNews.hit_title := Some "Show HN: an LLM in a spreadsheet";
       HackerNews.story_text := None;
       HackerNews.hit_url := Some "https://example.org/sheet";
       HackerNews.objectID := Some "101";
       HackerNews.hit_points := 90;
       HackerNews.created_at_i := inject_Z (sample_now / 1000 - 3 * 3600);
       HackerNews.hit_author := Some "ada";
       HackerNews.num_comments := 12 |};
    {| HackerNews.hit_title := Some "Claude writes a compiler";
       HackerNews.story_text := None;
       HackerNews.hit_url := None;
       HackerNews.objectID := Some "102";
       HackerNews.hit_points := 481;
       HackerNews.created_at_i := inject_Z (sample_now / 1000 - 24 * 3600);
       HackerNews.hit_author := Some "bob";
       HackerNews.num_comments := 230 |} ].

Definition sample_post (title : string) (score : Q) (age_seconds : Z) : Reddit.post_data :=
  {| Reddit.created_utc := inject_Z (sample_now / 1000 - age_seconds);
     Reddit.post_score := score;
     Reddit.post_title := title;
     Reddit.permalink := Some "/r/LocalLLaMA/comments/1";
     Reddit.post_num_comments := 7;
     Reddit.post_subreddit := Some "LocalLLaMA" |}.

Definition sample_children : list Reddit.post_data :=
  [ sample_post "Running a 70B model on a laptop" 300 (5 * 3600);
    sample_post "Weekly thread" 900 (30 * 3600);
    sample_post "New quantisation trick" 40 1800 ].

Definition sample_entry (title link : string) (hours : Z) : Arxiv.entry :=
  {| Arxiv.entry_title := Some title;
     Arxiv.entry_summary := Some "We study it.";
     Arxiv.link := Some link;
     Arxiv.published := Some (hours_before hours);
     Arxiv.entry_authors := Some "A. Author" |}.

(** A feed that lists the latest paper first, and one that does not. *)
Definition feed_latest_first : list Arxiv.entry :=
  [ sample_entry "Latest" "http://arxiv.org/abs/2603.00002" 2;
    sample_entry "Earlier" "http://arxiv.org/abs/2603.00001" 30 ].


Definition sample_models : list HuggingFace.model :=
  [ {| HuggingFace.tags := Some ["text-generation"];
       HuggingFace.modelId := Some "acme/llama-tiny";
       HuggingFace.model_id := None;
       HuggingFace.model_likes := Some 400;
       HuggingFace.model_likes7d := Some 35;
       HuggingFace.model_downloads := Some 12000 |} ].

Definition sample_spaces : list HuggingFace.space :=
  [ {| HuggingFace.space_id := Some "acme/chat-demo";
       HuggingFace.space_likes := Some 90;
       HuggingFace.space_likes7d := Some 60 |} ].

Definition sample_items : list ProductHunt.item :=
  [ {| ProductHunt.item_title := Some "Notetaker AI";
       ProductHunt.item_link := Some "https://www.producthunt.com/posts/notetaker";
       ProductHunt.pubDate := Some (hours_before 5);
       ProductHunt.desc := Some "Meeting notes, written for you" |};
    {| ProductHunt.item_title := Some "Untitled";
       ProductHunt.item_link := None;
       ProductHunt.pubDate := None;
       ProductHunt.desc := None |} ].

Definition sample_world : world :=
  {| w_date := "2026/03/01";
     w_time := "08:00";
     github_trending := Response true (Some {| GitHub.rows := Some sample_rows |});
     github_search := fun _ => Response false None;
     hn_response := Response true (Some {| HackerNews.hits := Some sample_hits |});
     hn_now := sample_now;
     reddit_net := fun u =>
       if String.eqb u (Reddit.hot_url "LocalLLaMA")
       then Response true (Some {| Reddit.children := Some sample_children |})
       else Response false None;
     reddit_now := sample_now;
     arxiv_response := Response true (Some feed_latest_first);
     arxiv_now := sample_now;
     hf_models := Response true (Some sample_models);
     hf_spaces := Response true (Some sample_spaces);
     ph_net := fun u =>
       if String.eqb u "https://www.producthunt.com/feed?category=artificial-intelligence"
       then Response true (Some sample_items)
       else NetworkError;
     ph_now := sample_now |}.

(** The same world with every request failing. *)
Definition dark_world : world :=
  {| w_date := "2026/03/01";
     w_time := "08:00";
     github_trending := NetworkError;
     github_search := fun _ => Response false None;
     hn_response := Response false None;
     hn_now := sample_now;
     reddit_net := fun _ => Response false None;
     reddit_now := sample_now;
     arxiv_response := NetworkError;
     arxiv_now := sample_now;
     hf_models := Response false None;
     hf_spaces := NetworkError;
     ph_net := fun _ => NetworkError;
     ph_now := sample_now |}.

(** A direct message of a user. *)
Definition direct_message (id author text : string) : message :=
  {| id := id;
     author_id := author;
     author_bot := false;
     channel_id := "dm-" +:+ author;
     is_dm := true;
     mentions_client := false;
     content := text |}.

(** The same message as a bot would send it. *)
Definition bot_message (id author text : string) : message :=
  {| id := id;
     author_id := author;
     author_bot := true;
     channel_id := "dm-" +:+ author;
     is_dm := true;
     mentions_client := false;
     content := text |}.

(** Twelve runs of the scheduler at 08:00, on eleven dates and then on
    the first date again, as a clock that is set back would give them. *)
Definition eight_oclock (d : string) : clock :=
  {| dateStr := d; hour := 8; minute := 0 |}.

Definition replayed_ticks : list clock :=
  map eight_oclock
    [ "2026-03-01"; "2026-03-02"; "2026-03-03"; "2026-03-04"; "2026-03-05";
      "2026-03-06"; "2026-03-07"; "2026-03-08"; "2026-03-09"; "2026-03-10";
      "2026-03-11"; "2026-03-01" ].

(** One day of runs, one a minute apart here and there: the 08:00 slot is
    seen twice. *)
Definition one_day_ticks : list clock :=
  [ {| dateStr := "2026-03-01"; hour := 7; minute := 59 |};
    {| dateStr := "2026-03-01"; hour := 8; minute := 0 |};
    {| dateStr := "2026-03-01"; hour := 8; minute := 0 |};
    {| dateStr := "2026-03-01"; hour := 8; minute := 1 |};
    {| dateStr := "2026-03-01"; hour := 20; minute := 0 |};
    {| dateStr := "2026-03-02"; hour := 8; minute := 0 |} ].

(** A stand-in for the number printers. *)
Definition show_number (q : Q) : string := pretty (Qnum q) +:+ "/" +:+ pretty (Zpos (Qden q)).

(** The report of the sample world without its arXiv section. *)
Definition sample_report : report :=
  {| date := "2026/03/01"; time := "08:00";
     github := map GitHub.of_row sample_rows;
     hackerNews := [];
     reddit := [];
     arxiv := [];
     huggingface := map HuggingFace.of_model sample_models;
     productHunt := [] |}.

(** A message delivered twice within the window, its timer, and a third
    delivery after the timer has run. *)
Definition redelivery : list event :=
  [ MessageCreate 0 (direct_message "42" "ada" "!subscribe");
    MessageCreate 5000 (direct_message "42" "ada" "!subscribe");
    TimerFires 10000 0;
    MessageCreate 12000 (direct_message "42" "ada" "!subscribe");
    MessageCreate 12500 (bot_message "43" "robot" "!subscribe") ].

(** ** Worlds that differ in one part *)

Definition set_github_search (w : world)
    (search : string -> fetch_result GitHub.search_body) : world :=
  {| w_date := w_date w; w_time := w_time w;
     github_trending := github_trending w;
     github_search := search;
     hn_response := hn_response w; hn_now := hn_now w;
     reddit_net := reddit_net w; reddit_now := reddit_now w;
     arxiv_response := arxiv_response w; arxiv_now := arxiv_now w;
     hf_models := hf_models w; hf_spaces := hf_spaces w;
     ph_net := ph_net w; ph_now := ph_now w |}.

Definition set_reddit_net (w : world)
    (net : string -> fetch_result Reddit.listing) : world :=
  {| w_date := w_date w; w_time := w_time w;
     github_trending := github_trending w;
     github_search := github_search w;
     hn_response := hn_response w; hn_now := hn_now w;
     reddit_net := net; reddit_now := reddit_now w;
     arxiv_response := arxiv_response w; arxiv_now := arxiv_now w;
     hf_models := hf_models w; hf_spaces := hf_spaces w;
     ph_net := ph_net w; ph_now := ph_now w |}.

Definition set_hf (w : world) (models : fetch_result (list HuggingFace.model))
    (spaces : fetch_result (list HuggingFace.space)) : world :=
  {| w_date := w_date w; w_time := w_time w;
     github_trending := github_trending w;
     github_search := github_search w;
     hn_response := hn_response w; hn_now := hn_now w;
     reddit_net := reddit_net w; reddit_now := reddit_now w;
     arxiv_response := arxiv_response w; arxiv_now := arxiv_now w;
     hf_models := models; hf_spaces := spaces;
     ph_net := ph_net w; ph_now := ph_now w |}.

Definition set_ph_net (w : world)
    (net : string -> fetch_result (list ProductHunt.item)) : world :=
  {| w_date := w_date w; w_time := w_time w;
     github_trending := github_trending w;
     github_search := github_search w;
     hn_response := hn_response w; hn_now := hn_now w;
     reddit_net := reddit_net w; reddit_now := reddit_now w;
     arxiv_response := arxiv_response w; arxiv_now := arxiv_now w;
     hf_models := hf_models w; hf_spaces := hf_spaces w;
     ph_net := net; ph_now := ph_now w |}.

(** Search results, one of them a repository of the trending rows. *)
Definition sample_search_items : list GitHub.item :=
  [ {| GitHub.full_name := Some "acme/agent-kit";
       GitHub.item_description := Some "An AI agent toolkit";
       GitHub.stargazers_count := 4200;
       GitHub.html_url := Some "https://github.com/acme/agent-kit";
       GitHub.item_language := Some "TypeScript" |};
    {| GitHub.full_name := Some "bigco/llm-serve";
       GitHub.item_description := Some "Serving LLMs";
       GitHub.stargazers_count := 15000;
       GitHub.html_url := Some "https://github.com/bigco/llm-serve";
       GitHub.item_language := Some "Python" |} ].

(** The sample world with a search API that answers, and with one whose
    requests are rejected. *)
Definition search_world : world :=
  set_github_search sample_world
    (fun _ => Response true (Some {| GitHub.items := Some sample_search_items |})).

Definition search_rejected_world : world :=
  set_github_search sample_world (fun _ => NetworkError).

(** The rows of a trending response that pass the AI filter. *)
Definition ai_rows (lib : string_lib) (data : GitHub.trending_body) : list GitHub.row :=
  List.filter (GitHub.is_ai (toLowerCase lib) (github_desc_match lib) (github_name_match lib))
              (default [] (GitHub.rows data)).

(** The listing a subreddit answers with when it has nothing. *)
Definition empty_listing : Reddit.listing := {| Reddit.children := None |}.

(** The sample world with the request for one subreddit rejected, and
    with the subreddits that did not answer ok answering with nothing. *)
Definition one_rejection_world : world :=
  set_reddit_net sample_world (fun u =>
    if String.eqb u (Reddit.hot_url "ClaudeAI") then NetworkError
    else reddit_net sample_world u).

Definition quiet_reddit_world : world :=
  set_reddit_net sample_world (fun u =>
    if String.eqb u (Reddit.hot_url "LocalLLaMA") then reddit_net sample_world u
    else Response true (Some empty_listing)).

(** The AI models of a Hugging Face response. *)
Definition ai_models (lib : string_lib) (models : list HuggingFace.model)
    : list HuggingFace.model :=
  List.filter (HuggingFace.is_ai (toLowerCase lib) (hf_id_match lib)) models.

(** ** The users of a push round

    The loop of [checkScheduledPush] over [subscribers] pushes a report
    to every user whose subscription has [enabled] set; [round_users] is
    the set of these users. *)
Definition round_users (subscribers : gmap string subscription) : gset string :=
  dom (filter (fun entry : string * subscription => enabled (snd entry) = true) subscribers).

(** The commands that change [subscribers]. *)
Definition subscribe_commands : list string := ["!subscribe"; "訂閱"].
Definition unsubscribe_commands : list string := ["!unsubscribe"; "取消訂閱"].

(** A chat in which two users subscribe, one of them leaves, a bot tries
    to subscribe, and a message in a channel does not mention the bot. *)
Definition channel_message (id author text : string) : message :=
  {| id := id;
     author_id := author;
     author_bot := false;
     channel_id := "general";
     is_dm := false;
     mentions_client := false;
     content := text |}.

Definition sample_chat : list event :=
  [ MessageCreate 0 (direct_message "1" "ada" "!subscribe");
    MessageCreate 1000 (direct_message "2" "bob" "!subscribe");
    MessageCreate 2000 (bot_message "3" "robot" "!subscribe");
    MessageCreate 3000 (channel_message "4" "carol" "!subscribe");
    MessageCreate 4000 (direct_message "5" "bob" "!unsubscribe");
    TimerFires 10000 0 ].

(** * Properties *)

(** ** Numbers *)

Lemma gt_true (a b : Q) : gt a b = true <-> b < a.
Proof.
  unfold gt. rewrite negb_true_iff, <- not_true_iff_false, Qle_bool_iff.
  split; [apply Qnot_le_lt | apply Qlt_not_le].
Qed.

Lemma lt_true (a b : Q) : lt a b = true <-> a < b.
Proof. unfold lt. apply gt_true. Qed.

Lemma le_true (a b : Q) : le a b = true <-> a <= b.
Proof. apply Qle_bool_iff. Qed.






Lemma Math_round_mono (x y : Q) : x <= y -> Math_round x <= Math_round y.
Proof.
  intros H. unfold Math_round. rewrite <- Zle_Qle.
  apply Qfloor_resp_le. lra.
Qed.

(** ** Sorting *)

Section js_sort_facts.

Context {A : Type}.

Lemma sort_insert_perm (cmp : A -> A -> Q) (x : A) (l : list A) :
  sort_insert cmp x l ≡ₚ x :: l.
Proof.
  induction l as [|y l IH]; simpl; [reflexivity|].
  destruct (Qle_bool (cmp x y) 0); [reflexivity|].
  rewrite IH. apply Permutation_swap.
Qed.

Lemma js_sort_perm (cmp : A -> A -> Q) (l : list A) : js_sort cmp l ≡ₚ l.
Proof.
  induction l as [|x l IH]; simpl; [reflexivity|].
  rewrite sort_insert_perm. now rewrite IH.
Qed.

Lemma js_sort_length (cmp : A -> A -> Q) (l : list A) :
  length (js_sort cmp l) = length l.
Proof. apply Permutation_length, js_sort_perm. Qed.


Variable key : A -> Q.

Lemma sort_insert_sorted (x : A) (l : list A) :
  StronglySorted (fun a b => key b <= key a) l ->
  StronglySorted (fun a b => key b <= key a) (sort_insert (fun a b => key b - key a) x l).
Proof.
  induction 1 as [|y l Hl IH Hy]; simpl.
  - repeat constructor.
  - destruct (Qle_bool (key y - key x) 0) eqn:E.
    + apply Qle_bool_iff in E.
      constructor; [constructor; assumption|].
      constructor; [lra|].
      eapply Forall_impl; [exact Hy|]. simpl. intros z Hz. lra.
    + assert (key x < key y) as Hxy.
      { apply Qnot_le_lt. intros Hle. apply not_true_iff_false in E. apply E.
        apply Qle_bool_iff. lra. }
      constructor; [exact IH|].
      rewrite sort_insert_perm. constructor; [lra|exact Hy].
Qed.

Lemma js_sort_strongly_sorted (l : list A) :
  StronglySorted (fun a b => key b <= key a) (js_sort (fun a b => key b - key a) l).
Proof.
  induction l as [|x l IH]; simpl; [constructor|].
  now apply sort_insert_sorted.
Qed.

End js_sort_facts.






Lemma elem_of_List_filter {A} (f : A -> bool) (l : list A) (x : A) :
  x ∈ List.filter f l <-> x ∈ l /\ f x = true.
Proof. rewrite !list_elem_of_In. apply filter_In. Qed.

Lemma elem_of_List_map {A B} (f : A -> B) (l : list A) (y : B) :
  y ∈ map f l <-> exists x, y = f x /\ x ∈ l.
Proof.
  rewrite list_elem_of_In, in_map_iff. split.
  - intros (x & <- & Hx). exists x. split; [reflexivity|]. now apply list_elem_of_In.
  - intros (x & -> & Hx). exists x. split; [reflexivity|]. now apply list_elem_of_In.
Qed.

(** ** Hacker News *)

Section hacker_news_facts.

Variable toLowerCase : string -> string.
Variable aiKeywords_test : string -> bool.

Lemma fetchHackerNews_cases (limit : nat) (Date_now : Z)
    (resp : fetch_result HackerNews.search_response) :
  (HackerNews.fetchHackerNews toLowerCase aiKeywords_test limit Date_now resp = Returned []
   /\ (resp = NetworkError \/ (exists b, resp = Response false b) \/ resp = Response true None))
  \/ exists data, resp = Response true (Some data) /\
       HackerNews.fetchHackerNews toLowerCase aiKeywords_test limit Date_now resp =
       Returned (take limit
         (js_sort (fun a b => HackerNews.pointsPerHour b - HackerNews.pointsPerHour a)
                  (HackerNews.stories toLowerCase aiKeywords_test (inject_Z Date_now / 1000) data))).
Proof.
  destruct resp as [|[] [data|]]; simpl; eauto 6.
Qed.

End hacker_news_facts.

(** ** GitHub *)

Section github_facts.

Variable toLowerCase : string -> string.
Variable desc_match : string -> bool.
Variable name_match : string -> bool.
Variable encodeURIComponent : string -> string.
Variable trending : fetch_result GitHub.trending_body.
Variable search : string -> fetch_result GitHub.search_body.

Lemma push_items_origin (l : list GitHub.item) (results : list GitHub.repo) :
  Forall github_origin results -> Forall github_origin (GitHub.push_items results l).
Proof.
  revert results. induction l as [|i l IH]; intros results H; simpl; [exact H|].
  apply IH. destruct (GitHub.found results i); [exact H|].
  apply Forall_app. split; [exact H|].
  constructor; [|constructor]. right. now exists i.
Qed.

Lemma trending_try_origin (limit : nat) (l : list GitHub.repo) :
  GitHub.trending_try toLowerCase desc_match name_match trending limit = Returned l ->
  Forall github_origin l.
Proof.
  unfold GitHub.trending_try. destruct trending as [|[] [data|]]; simpl; try discriminate.
  - intros [= <-]. apply Forall_forall. intros r Hr.
    apply elem_of_List_map in Hr as (row & -> & _). left. now exists row.
  - intros [= <-]. constructor.
  - intros [= <-]. constructor.
Qed.

Lemma search_loop_origin (limit : nat) (qs : list string) (results out : list GitHub.repo) :
  Forall github_origin results ->
  GitHub.search_loop encodeURIComponent search limit qs results = Returned out ->
  Forall github_origin out.
Proof.
  revert results. induction qs as [|q qs IH]; intros results H; simpl.
  - now intros [= <-].
  - case_bool_decide; [now intros [= <-]|].
    destruct (search _) as [|[] [data|]]; simpl; try discriminate.
    + apply IH. now apply push_items_origin.
    + now apply IH.
    + now apply IH.
Qed.

(** The fetcher always returns, and what it returns is the sorted and
    truncated list of the records it collected. *)
Lemma fetchGitHubTrending_shape (limit : nat) :
  exists results,
    GitHub.fetchGitHubTrending toLowerCase desc_match name_match encodeURIComponent
      trending search limit =
    Returned (take limit
      (js_sort (fun a b => or0 (GitHub.starsToday b) - or0 (GitHub.starsToday a)) results))
    /\ Forall github_origin results.
Proof.
  unfold GitHub.fetchGitHubTrending, GitHub.fetchGitHubTrending_try.
  set (results0 := match GitHub.trending_try _ _ _ _ _ with Returned l => l | Thrown => [] end).
  assert (Forall github_origin results0) as H0.
  { subst results0.
    destruct (GitHub.trending_try _ _ _ _ _) as [l|] eqn:E; [|constructor].
    eapply trending_try_origin, E. }
  case_bool_decide.
  - destruct (GitHub.search_loop _ _ _ _ _) as [out|] eqn:E; simpl.
    + exists out. split; [reflexivity|]. eapply search_loop_origin; eauto.
    + exists []. split; [simpl; now rewrite take_nil|constructor].
  - simpl. exists results0. now split.
Qed.

(** With every search request failing, the loop either throws or leaves
    [results] as it was. *)
Lemma search_loop_down (limit : nat) (qs : list string) (results : list GitHub.repo) :
  (forall q, q ∈ qs -> failed (search (GitHub.search_url encodeURIComponent q))) ->
  GitHub.search_loop encodeURIComponent search limit qs results = Thrown \/
  GitHub.search_loop encodeURIComponent search limit qs results = Returned results.
Proof.
  induction qs as [|q qs IH]; intros H; simpl; [now right|].
  case_bool_decide; [now right|].
  pose proof (H q ltac:(left)) as Hq.
  destruct (search _) as [|ok body]; simpl in *; [now left|].
  subst ok. apply IH. intros q' Hq'. apply H. now right.
Qed.

Lemma fetchGitHubTrending_down (limit : nat) :
  failed trending ->
  (forall q, q ∈ GitHub.queries -> failed (search (GitHub.search_url encodeURIComponent q))) ->
  GitHub.fetchGitHubTrending toLowerCase desc_match name_match encodeURIComponent
    trending search limit = Returned [].
Proof.
  intros Ht Hs.
  unfold GitHub.fetchGitHubTrending, GitHub.fetchGitHubTrending_try.
  assert (match GitHub.trending_try toLowerCase desc_match name_match trending limit with
          | Returned l => l
          | Thrown => []
          end = []) as ->.
  { unfold GitHub.trending_try. destruct trending as [|ok body]; simpl in *; [reflexivity|].
    now subst ok. }
  case_bool_decide.
  - destruct (search_loop_down limit GitHub.queries [] Hs) as [-> | ->]; simpl; [reflexivity|].
    now rewrite take_nil.
  - simpl. now rewrite take_nil.
Qed.

End github_facts.

(** ** Reddit *)

Section reddit_facts.

Variable net : string -> fetch_result Reddit.listing.

Lemma sub_loop_origin (P : Reddit.post -> Prop) (now : Q) (subs : list string)
    (allPosts out : list Reddit.post) :
  (forall sub data d, sub ∈ subs -> net (Reddit.hot_url sub) = Response true (Some data) ->
     d ∈ default [] (Reddit.children data) -> now - Reddit.created_utc d < 86400 ->
     P (Reddit.make_post now d)) ->
  Forall P allPosts ->
  Reddit.sub_loop net now subs allPosts = Returned out ->
  Forall P out.
Proof.
  revert allPosts. induction subs as [|sub subs IH]; intros allPosts HP H; simpl.
  - now intros [= <-].
  - destruct (net (Reddit.hot_url sub)) as [|[] [data|]] eqn:E; simpl; try discriminate.
    + apply IH.
      * intros sub' data' d Hsub. apply HP. now right.
      * apply Forall_app. split; [exact H|].
        apply Forall_forall. intros p Hp.
        apply elem_of_List_map in Hp as (d & -> & Hd).
        apply elem_of_List_filter in Hd as [Hd Hrecent].
        apply (HP sub data d); auto; [now left|].
        now apply lt_true.
    + apply IH; [|exact H]. intros sub' data' d Hsub. apply HP. now right.
    + apply IH; [|exact H]. intros sub' data' d Hsub. apply HP. now right.
Qed.

Lemma fetchReddit_shape (limit : nat) (Date_now : Z) :
  exists allPosts,
    Reddit.fetchReddit net limit Date_now =
    Returned (take limit
      (js_sort (fun a b => Reddit.scorePerHour b - Reddit.scorePerHour a) allPosts))
    /\ Forall (reddit_origin net (inject_Z Date_now / 1000)) allPosts.
Proof.
  unfold Reddit.fetchReddit, Reddit.fetchReddit_try.
  destruct (Reddit.sub_loop _ _ _ _) as [out|] eqn:E; simpl.
  - exists out. split; [reflexivity|].
    eapply sub_loop_origin; [| |exact E]; [|constructor].
    intros sub data d Hsub Hnet Hd Hage. now exists sub, data, d.
  - exists []. split; [simpl; now rewrite take_nil|constructor].
Qed.

Lemma sub_loop_down (now : Q) (subs : list string) (allPosts : list Reddit.post) :
  (forall sub, sub ∈ subs -> failed (net (Reddit.hot_url sub))) ->
  Reddit.sub_loop net now subs allPosts = Thrown \/
  Reddit.sub_loop net now subs allPosts = Returned allPosts.
Proof.
  induction subs as [|sub subs IH]; intros H; simpl; [now right|].
  pose proof (H sub ltac:(left)) as Hs.
  destruct (net _) as [|ok body]; simpl in *; [now left|].
  subst ok. apply IH. intros sub' Hsub'. apply H. now right.
Qed.

Lemma fetchReddit_down (limit : nat) (Date_now : Z) :
  (forall sub, sub ∈ Reddit.subreddits -> failed (net (Reddit.hot_url sub))) ->
  Reddit.fetchReddit net limit Date_now = Returned [].
Proof.
  intros H. unfold Reddit.fetchReddit, Reddit.fetchReddit_try.
  destruct (sub_loop_down (inject_Z Date_now / 1000) Reddit.subreddits [] H) as [-> | ->];
    simpl; [reflexivity|].
  now rewrite take_nil.
Qed.

End reddit_facts.

(** ** arXiv *)

Lemma fetchArxiv_cases (limit : nat) (now : Z) (resp : fetch_result (list Arxiv.entry)) :
  (Arxiv.fetchArxiv limit now resp = Returned []
   /\ (resp = NetworkError \/ (exists b, resp = Response false b) \/ resp = Response true None))
  \/ exists entries, resp = Response true (Some entries) /\
       Arxiv.fetchArxiv limit now resp = Returned (Arxiv.entry_loop limit now entries []).
Proof.
  destruct resp as [|[] [entries|]]; simpl; eauto 6.
Qed.

(** The loop collects the candidates of the feed in feed order until
    [limit] papers are there. *)
Lemma entry_loop_spec (limit : nat) (now : Z) (entries : list Arxiv.entry)
    (papers : list Arxiv.paper) :
  (length papers < limit)%nat ->
  Arxiv.entry_loop limit now entries papers =
  papers ++ take (limit - length papers) (omap (Arxiv.candidate now) entries).
Proof.
  revert papers. induction entries as [|e entries IH]; intros papers Hlen; simpl.
  - now rewrite take_nil, app_nil_r.
  - unfold Arxiv.visit. destruct (Arxiv.candidate now e) as [p|]; simpl.
    + rewrite length_app. simpl. case_bool_decide.
      * replace (limit - length papers)%nat with 1%nat by lia. simpl.
        now rewrite take_0.
      * rewrite IH by (rewrite length_app; simpl; lia).
        rewrite length_app. simpl.
        replace (limit - length papers)%nat with (S (limit - (length papers + 1))) by lia.
        simpl. now rewrite <- app_assoc.
    + case_bool_decide; [lia|]. now apply IH.
Qed.

Lemma entry_loop_from_empty (limit : nat) (now : Z) (entries : list Arxiv.entry) :
  (1 <= limit)%nat ->
  Arxiv.entry_loop limit now entries [] = take limit (omap (Arxiv.candidate now) entries).
Proof.
  intros H. rewrite entry_loop_spec by (simpl; lia). simpl. now rewrite Nat.sub_0_r.
Qed.

(** Every paper the loop returns is the candidate of an entry. *)
Lemma entry_loop_elem_of (limit : nat) (now : Z) (entries : list Arxiv.entry)
    (papers : list Arxiv.paper) (p : Arxiv.paper) :
  p ∈ Arxiv.entry_loop limit now entries papers ->
  p ∈ papers \/ exists e, e ∈ entries /\ Arxiv.candidate now e = Some p.
Proof.
  revert papers. induction entries as [|e entries IH]; intros papers; simpl; [now left|].
  assert (p ∈ Arxiv.visit now e papers ->
          p ∈ papers \/ exists e', e' ∈ e :: entries /\ Arxiv.candidate now e' = Some p) as Hv.
  { unfold Arxiv.visit. destruct (Arxiv.candidate now e) as [q|] eqn:E; [|now left].
    rewrite elem_of_app, list_elem_of_singleton. intros [H | ->]; [now left|].
    right. exists e. split; [left|exact E]. }
  case_bool_decide; [exact Hv|].
  intros Hp. apply IH in Hp as [Hp | (e' & He' & Hc)]; [now apply Hv|].
  right. exists e'. split; [now right|exact Hc].
Qed.




(** ** Hugging Face *)

Section hugging_face_facts.

Variable toLowerCase : string -> string.
Variable id_match : string -> bool.

Lemma fetchHuggingFace_shape (limit : nat)
    (models : fetch_result (list HuggingFace.model))
    (spaces : fetch_result (list HuggingFace.space)) :
  exists results,
    HuggingFace.fetchHuggingFace toLowerCase id_match limit models spaces =
    Returned (take limit
      (js_sort (fun a b => or0 (HuggingFace.likes7d b) - or0 (HuggingFace.likes7d a)) results))
    /\ Forall hf_origin results.
Proof.
  unfold HuggingFace.fetchHuggingFace, HuggingFace.fetchHuggingFace_try.
  assert (forall l : list HuggingFace.model, Forall hf_origin (map HuggingFace.of_model l)) as Hm.
  { intros l. apply Forall_forall. intros x Hx.
    apply elem_of_List_map in Hx as (m & -> & _). left. now exists m. }
  assert (forall l : list HuggingFace.space, Forall hf_origin (map HuggingFace.of_space l)) as Hs.
  { intros l. apply Forall_forall. intros x Hx.
    apply elem_of_List_map in Hx as (s & -> & _). right. now exists s. }
  destruct models as [|[] [ms|]], spaces as [|[] [ss|]]; simpl;
    try (exists []; split; [simpl; now rewrite take_nil|constructor]);
    eexists; (split; [reflexivity|]);
    rewrite ?app_nil_r; try apply Forall_app; auto.
Qed.

Lemma fetchHuggingFace_down (limit : nat)
    (models : fetch_result (list HuggingFace.model))
    (spaces : fetch_result (list HuggingFace.space)) :
  failed models -> failed spaces ->
  HuggingFace.fetchHuggingFace toLowerCase id_match limit models spaces = Returned [].
Proof.
  destruct models as [|ok1 b1], spaces as [|ok2 b2]; simpl; try reflexivity.
  intros -> ->. now destruct limit.
Qed.

End hugging_face_facts.

(** ** Product Hunt *)

Section product_hunt_facts.

Variable strip_tags : string -> string.
Variable net : string -> fetch_result (list ProductHunt.item).

(** The loop returns the products of the first [limit] items of one
    feed that have a link, in feed order, or nothing. *)
Lemma source_loop_shape (limit : nat) (now : Z) (feeds : list string) :
  exists items,
    (items = [] \/ exists u, u ∈ feeds /\ net u = Response true (Some items)) /\
    ProductHunt.source_loop strip_tags net limit now feeds =
    List.filter (fun p => truthy (Some (ProductHunt.url p)))
      (map (ProductHunt.make_product strip_tags now) (take limit items)).
Proof.
  induction feeds as [|u feeds IH]; simpl.
  - exists []. split; [now left|]. now destruct limit.
  - assert (exists items,
      (items = [] \/ exists u', u' ∈ u :: feeds /\ net u' = Response true (Some items)) /\
      ProductHunt.source_loop strip_tags net limit now feeds =
      List.filter (fun p => truthy (Some (ProductHunt.url p)))
        (map (ProductHunt.make_product strip_tags now) (take limit items))) as IH'.
    { destruct IH as (items & [-> | (u' & Hu' & Hnet)] & Heq); exists items + exists [];
        (split; [|exact Heq]); [now left|].
      right. exists u'. split; [now right|exact Hnet]. }
    unfold ProductHunt.try_source.
    destruct (net u) as [|[] [items|]] eqn:E; simpl; try exact IH'.
    case_bool_decide; [|exact IH'].
    exists items. split; [|reflexivity]. right. exists u. split; [left|exact E].
Qed.

Lemma fetchProductHunt_shape (limit : nat) (now : Z) :
  exists items,
    (items = [] \/ exists u, u ∈ ProductHunt.sources /\ net u = Response true (Some items)) /\
    ProductHunt.fetchProductHunt strip_tags net limit now =
    Returned (List.filter (fun p => truthy (Some (ProductHunt.url p)))
                (map (ProductHunt.make_product strip_tags now) (take limit items))).
Proof.
  destruct (source_loop_shape limit now ProductHunt.sources) as (items & Ho & H).
  exists items. split; [exact Ho|].
  unfold ProductHunt.fetchProductHunt, try_catch. now rewrite H.
Qed.

Lemma source_loop_down (limit : nat) (now : Z) (feeds : list string) :
  (forall u, u ∈ feeds -> failed (net u)) ->
  ProductHunt.source_loop strip_tags net limit now feeds = [].
Proof.
  induction feeds as [|u feeds IH]; intros H; simpl; [reflexivity|].
  unfold ProductHunt.try_source.
  pose proof (H u ltac:(left)) as Hu.
  destruct (net u) as [|ok body]; simpl in *.
  - apply IH. intros u' Hu'. apply H. now right.
  - subst ok. apply IH. intros u' Hu'. apply H. now right.
Qed.

Lemma fetchProductHunt_down (limit : nat) (now : Z) :
  (forall u, u ∈ ProductHunt.sources -> failed (net u)) ->
  ProductHunt.fetchProductHunt strip_tags net limit now = Returned [].
Proof.
  intros H. unfold ProductHunt.fetchProductHunt, try_catch.
  now rewrite source_loop_down.
Qed.

End product_hunt_facts.

(** ** The fetchers, one by one (C1) *)

Lemma List_filter_sublist {A} (f : A -> bool) (l : list A) : List.filter f l `sublist_of` l.
Proof.
  induction l as [|x l IH]; simpl; [constructor|].
  destruct (f x); now constructor.
Qed.

Lemma List_filter_length {A} (f : A -> bool) (l : list A) :
  (length (List.filter f l) <= length l)%nat.
Proof. apply sublist_length, List_filter_sublist. Qed.




(** ** Failing sources (C2) *)

Section fetchers_return.

Variable lib : string_lib.
Variable w : world.

Lemma fetchGitHubTrending_returns (limit : nat) :
  exists out, fetchGitHubTrending lib w limit = Returned out.
Proof.
  destruct (fetchGitHubTrending_shape (toLowerCase lib) (github_desc_match lib)
              (github_name_match lib) (encodeURIComponent lib)
              (github_trending w) (github_search w) limit) as (results & Heq & _).
  eexists. exact Heq.
Qed.

Lemma fetchHackerNews_returns (limit : nat) :
  exists out, fetchHackerNews lib w limit = Returned out.
Proof.
  unfold fetchHackerNews.
  destruct (fetchHackerNews_cases (toLowerCase lib) (hn_aiKeywords_test lib)
              limit (hn_now w) (hn_response w)) as [[Heq _] | (data & _ & Heq)];
    eexists; exact Heq.
Qed.

Lemma fetchReddit_returns (limit : nat) :
  exists out, fetchReddit w limit = Returned out.
Proof.
  destruct (fetchReddit_shape (reddit_net w) limit (reddit_now w)) as (allPosts & Heq & _).
  eexists. exact Heq.
Qed.

Lemma fetchArxiv_returns (limit : nat) :
  exists out, fetchArxiv w limit = Returned out.
Proof.
  unfold fetchArxiv.
  destruct (fetchArxiv_cases limit (arxiv_now w) (arxiv_response w))
    as [[Heq _] | (entries & _ & Heq)]; eexists; exact Heq.
Qed.

Lemma fetchHuggingFace_returns (limit : nat) :
  exists out, fetchHuggingFace lib w limit = Returned out.
Proof.
  destruct (fetchHuggingFace_shape (toLowerCase lib) (hf_id_match lib) limit
              (hf_models w) (hf_spaces w)) as (results & Heq & _).
  eexists. exact Heq.
Qed.

Lemma fetchProductHunt_returns (limit : nat) :
  exists out, fetchProductHunt lib w limit = Returned out.
Proof.
  destruct (fetchProductHunt_shape (strip_tags lib) (ph_net w) limit (ph_now w))
    as (items & _ & Heq).
  eexists. exact Heq.
Qed.

End fetchers_return.

(** A source all of whose requests fail gives the empty sequence. *)
Lemma wrapped_github_down (lib : string_lib) (w : world) (limit : nat) :
  github_down lib w -> fetchGitHubTrending lib w limit = Returned [].
Proof. intros [Ht Hs]. unfold fetchGitHubTrending. apply fetchGitHubTrending_down; assumption. Qed.

Lemma wrapped_hn_down (lib : string_lib) (w : world) (limit : nat) :
  hn_down w -> fetchHackerNews lib w limit = Returned [].
Proof.
  unfold fetchHackerNews, hn_down. destruct (hn_response w) as [|ok body]; [reflexivity|].
  intros H. red in H. subst ok. reflexivity.
Qed.

Lemma wrapped_reddit_down (w : world) (limit : nat) :
  reddit_down w -> fetchReddit w limit = Returned [].
Proof. intros H. unfold fetchReddit. apply fetchReddit_down. exact H. Qed.

Lemma wrapped_arxiv_down (w : world) (limit : nat) :
  arxiv_down w -> fetchArxiv w limit = Returned [].
Proof.
  unfold fetchArxiv, arxiv_down. destruct (arxiv_response w) as [|ok body]; [reflexivity|].
  intros H. red in H. subst ok. reflexivity.
Qed.

Lemma wrapped_hf_down (lib : string_lib) (w : world) (limit : nat) :
  hf_down w -> fetchHuggingFace lib w limit = Returned [].
Proof. intros [Hm Hs]. unfold fetchHuggingFace. apply fetchHuggingFace_down; assumption. Qed.

Lemma wrapped_ph_down (lib : string_lib) (w : world) (limit : nat) :
  ph_down w -> fetchProductHunt lib w limit = Returned [].
Proof. intros H. unfold fetchProductHunt. apply fetchProductHunt_down. exact H. Qed.

(** C2.  A fetcher all of whose requests fail (the promise rejects, or
    the status is not ok) returns the empty sequence, it does not throw;
    generateTrendReport returns a report each section of which is what
    the fetcher of that source returned, so the section of a failing
    source is empty and the other sections are untouched. *)
Theorem C2_failing_source_gives_empty_section (lib : string_lib) (w : world) :
  (forall limit, github_down lib w -> fetchGitHubTrending lib w limit = Returned []) /\
  (forall limit, hn_down w -> fetchHackerNews lib w limit = Returned []) /\
  (forall limit, reddit_down w -> fetchReddit w limit = Returned []) /\
  (forall limit, arxiv_down w -> fetchArxiv w limit = Returned []) /\
  (forall limit, hf_down w -> fetchHuggingFace lib w limit = Returned []) /\
  (forall limit, ph_down w -> fetchProductHunt lib w limit = Returned []) /\
  exists r, generateTrendReport lib w = Returned r /\
    (fetchGitHubTrending lib w 6 = Returned (github r) /\
     fetchHackerNews lib w 6 = Returned (hackerNews r) /\
     fetchReddit w 5 = Returned (reddit r) /\
     fetchArxiv w 4 = Returned (arxiv r) /\
     fetchHuggingFace lib w 5 = Returned (huggingface r) /\
     fetchProductHunt lib w 3 = Returned (productHunt r)) /\
    (github_down lib w -> github r = []) /\
    (hn_down w -> hackerNews r = []) /\
    (reddit_down w -> reddit r = []) /\
    (arxiv_down w -> arxiv r = []) /\
    (hf_down w -> huggingface r = []) /\
    (ph_down w -> productHunt r = []).
Proof.
  pose proof (fun limit => wrapped_github_down lib w limit) as Hgh.
  pose proof (fun limit => wrapped_hn_down lib w limit) as Hhn.
  pose proof (fun limit => wrapped_reddit_down w limit) as Hrd.
  pose proof (fun limit => wrapped_arxiv_down w limit) as Hax.
  pose proof (fun limit => wrapped_hf_down lib w limit) as Hhf.
  pose proof (fun limit => wrapped_ph_down lib w limit) as Hph.
  repeat (split; [assumption|]).
  destruct (fetchGitHubTrending_returns lib w 6) as [gh Egh].
  destruct (fetchHackerNews_returns lib w 6) as [hn Ehn].
  destruct (fetchReddit_returns w 5) as [rd Erd].
  destruct (fetchArxiv_returns w 4) as [ax Eax].
  destruct (fetchHuggingFace_returns lib w 5) as [hf Ehf].
  destruct (fetchProductHunt_returns lib w 3) as [ph Eph].
  exists {| date := w_date w; time := w_time w; github := gh; hackerNews := hn;
            reddit := rd; arxiv := ax; huggingface := hf; productHunt := ph |}.
  split.
  { unfold generateTrendReport. rewrite Egh, Ehn, Erd, Eax, Ehf, Eph. reflexivity. }
  cbn [github hackerNews reddit arxiv huggingface productHunt].
  split; [repeat (split; [assumption|]); assumption|].
  split; [intros Hdown; specialize (Hgh 6%nat Hdown); congruence|].
  split; [intros Hdown; specialize (Hhn 6%nat Hdown); congruence|].
  split; [intros Hdown; specialize (Hrd 5%nat Hdown); congruence|].
  split; [intros Hdown; specialize (Hax 4%nat Hdown); congruence|].
  split; [intros Hdown; specialize (Hhf 5%nat Hdown); congruence|].
  intros Hdown; specialize (Hph 3%nat Hdown); congruence.
Qed.

Lemma C2_witness :
  github_down sample_lib dark_world /\ hn_down dark_world /\ reddit_down dark_world /\
  arxiv_down dark_world /\ hf_down dark_world /\ ph_down dark_world /\
  exists r, generateTrendReport sample_lib dark_world = Returned r /\
    github r = [] /\ hackerNews r = [] /\ reddit r = [] /\
    arxiv r = [] /\ huggingface r = [] /\ productHunt r = [].
Proof.
  assert (github_down sample_lib dark_world) as Hgh by (split; [exact I|reflexivity]).
  assert (hn_down dark_world) as Hhn by reflexivity.
  assert (reddit_down dark_world) as Hrd by (intros sub _; reflexivity).
  assert (arxiv_down dark_world) as Hax by exact I.
  assert (hf_down dark_world) as Hhf by (split; [reflexivity|exact I]).
  assert (ph_down dark_world) as Hph by (intros u _; exact I).
  repeat (split; [assumption|]).
  destruct (C2_failing_source_gives_empty_section sample_lib dark_world)
    as (_ & _ & _ & _ & _ & _ & r & Hr & _ & H1 & H2 & H3 & H4 & H5 & H6).
  exists r. split; [exact Hr|].
  split; [exact (H1 Hgh)|]. split; [exact (H2 Hhn)|]. split; [exact (H3 Hrd)|].
  split; [exact (H4 Hax)|]. split; [exact (H5 Hhf)|]. exact (H6 Hph).
Defined.

(** ** The flags of the records (C3) *)






(** ** The Hacker News rate (C4) *)



(** On the sample response the second story has an unrounded rate just
    above 20: it prints as 20 points per hour and is hot all the same. *)
Example hot_by_unrounded_rate :
  (fun l => map (fun s => (HackerNews.pointsPerHour s, HackerNews.isHot s)) l)
    <$> (match fetchHackerNews sample_lib sample_world 6 with
         | Returned l => Some l
         | Thrown => None
         end)
  = Some [(300 # 10, true); (200 # 10, true)].
Proof. vm_compute. reflexivity. Qed.

(** ** The Reddit time window (C6) *)




(** The 30 hours old post of the sample listing is left out. *)
Example old_post_filtered :
  (fun l => map Reddit.title l)
    <$> (match fetchReddit sample_world 5 with Returned l => Some l | Thrown => None end)
  = Some ["Running a 70B model on a laptop"; "New quantisation trick"].
Proof. vm_compute. reflexivity. Qed.

(** ** Subscriptions (C10) *)

(** C10.  On the subscribe command handleMessage sets the entry of the
    author of the message to its channel with enabled = true and leaves
    the entry of every other user as it was; on the unsubscribe command
    it removes the entry of the author and leaves every other entry as it
    was. *)
Theorem C10_subscribe_touches_only_the_author (normalize : string -> string)
    (subs : gmap string subscription) (m : message) (text : string) :
  (normalize text ∈ ["!subscribe"; "訂閱"] ->
   let subs' := fst (handleMessage normalize subs m text) in
   subs' !! author_id m = Some {| channelId := channel_id m; enabled := true |} /\
   forall other, other <> author_id m -> subs' !! other = subs !! other) /\
  (normalize text ∈ ["!unsubscribe"; "取消訂閱"] ->
   let subs' := fst (handleMessage normalize subs m text) in
   subs' !! author_id m = None /\
   forall other, other <> author_id m -> subs' !! other = subs !! other).
Proof.
  split; intros Hcmd; unfold handleMessage.
  - assert (normalize text = "!subscribe" \/ normalize text = "訂閱") as [-> | ->]
      by (rewrite !elem_of_cons, elem_of_nil in Hcmd; tauto).
    + cbn. split; [apply lookup_insert_eq|].
      intros other Hother. now apply lookup_insert_ne.
    + cbn. split; [apply lookup_insert_eq|].
      intros other Hother. now apply lookup_insert_ne.
  - assert (normalize text = "!unsubscribe" \/ normalize text = "取消訂閱") as [-> | ->]
      by (rewrite !elem_of_cons, elem_of_nil in Hcmd; tauto).
    + cbn. split; [apply lookup_delete_eq|].
      intros other Hother. now apply lookup_delete_ne.
    + cbn. split; [apply lookup_delete_eq|].
      intros other Hother. now apply lookup_delete_ne.
Qed.

Lemma C10_witness :
  (fun s : string => s) "!subscribe" ∈ ["!subscribe"; "訂閱"] /\
  (fun s : string => s) "!unsubscribe" ∈ ["!unsubscribe"; "取消訂閱"] /\
  fst (handleMessage (fun s => s) ∅ (direct_message "1" "ada" "!subscribe") "!subscribe")
    !! "ada" = Some {| channelId := "dm-ada"; enabled := true |} /\
  fst (handleMessage (fun s => s)
         {[ "ada" := {| channelId := "dm-ada"; enabled := true |} ]}
         (direct_message "2" "ada" "!unsubscribe") "!unsubscribe")
    !! "ada" = None.
Proof.
  assert ((fun s : string => s) "!subscribe" ∈ ["!subscribe"; "訂閱"]) as H1 by left.
  assert ((fun s : string => s) "!unsubscribe" ∈ ["!unsubscribe"; "取消訂閱"]) as H2 by left.
  split; [exact H1|]. split; [exact H2|]. split.
  - exact (proj1 (proj1 (C10_subscribe_touches_only_the_author (fun s => s) ∅
             (direct_message "1" "ada" "!subscribe") "!subscribe") H1)).
  - exact (proj1 (proj2 (C10_subscribe_touches_only_the_author (fun s => s)
             {[ "ada" := {| channelId := "dm-ada"; enabled := true |} ]}
             (direct_message "2" "ada" "!unsubscribe") "!unsubscribe") H2)).
Defined.

(** ** The embeds of a report (C9) *)


Section chain.

Variables t e1 e2 e3 e4 e5 e6 : embed.
Variables b1 b2 b3 b4 b5 b6 : bool.




Hypothesis distinct : NoDup [t; e1; e2; e3; e4; e5; e6].


End chain.

Section report_embeds.

Variable show : Q -> string.
Variable toLocaleString : Q -> string.
Variable r : report.



End report_embeds.



(** The sample report has three embeds: title, GitHub, Hugging Face. *)
Example sample_report_embeds :
  map color (createReportEmbeds show_number show_number sample_report)
  = [0x00AE86; 0x24292e; 0xFFD21E]%Z.
Proof. reflexivity. Qed.

(** ** The schedule (C8, C5) *)

Lemma set_delete_absent (k : string) (s : string_set) : k ∉ s -> set_delete k s = s.
Proof.
  intros Hk. unfold set_delete. induction s as [|x s IH]; simpl; [reflexivity|].
  apply not_elem_of_cons in Hk as [Hne Hk].
  destruct (String.eqb x k) eqn:E.
  - apply String.eqb_eq in E. congruence.
  - simpl. now rewrite IH.
Qed.

Lemma set_delete_head (k : string) (s : string_set) :
  k ∉ s -> set_delete k (k :: s) = s.
Proof.
  intros Hk. unfold set_delete. simpl. rewrite String.eqb_refl. simpl.
  now apply set_delete_absent.
Qed.

(** Deleting the first keys of a set one by one leaves the rest. *)
Lemma delete_prefix (l1 l2 : string_set) :
  NoDup (l1 ++ l2) ->
  fold_left (fun s k => set_delete k s) l1 (l1 ++ l2) = l2.
Proof.
  induction l1 as [|k l1 IH]; intros Hnd; [reflexivity|].
  cbn [app fold_left] in *. apply NoDup_cons in Hnd as [Hk Hnd].
  rewrite set_delete_head by exact Hk. now apply IH.
Qed.

(** The trimming keeps the ten keys added last. *)
Lemma trim_last_n (s : string_set) : NoDup s -> trim s = last_n 10 s.
Proof.
  intros Hnd. unfold trim, last_n. case_bool_decide as Hlen.
  - rewrite <- (take_drop (length s - 10) s) at 3.
    rewrite delete_prefix; [reflexivity|]. now rewrite take_drop.
  - replace (length s - 10)%nat with 0%nat by lia. reflexivity.
Qed.

Lemma last_n_length {A} (n : nat) (l : list A) : (length (last_n n l) <= n)%nat.
Proof. unfold last_n. rewrite length_drop. lia. Qed.

Lemma last_n_NoDup (n : nat) (l : string_set) : NoDup l -> NoDup (last_n n l).
Proof. intros H. unfold last_n. eapply sublist_NoDup; [exact H|apply sublist_drop]. Qed.

Lemma last_n_snoc {A} (n : nat) (l : list A) (x : A) :
  last_n (S n) (last_n (S n) l ++ [x]) = last_n (S n) (l ++ [x]).
Proof.
  unfold last_n. destruct (decide (length l <= S n)%nat) as [Hle | Hgt].
  - replace (length l - S n)%nat with 0%nat by lia. now rewrite drop_0.
  - rewrite !length_app, length_drop. cbn [length].
    replace (length l - (length l - S n) + 1 - S n)%nat with 1%nat by lia.
    rewrite !drop_app_le by (rewrite ?length_drop; lia).
    rewrite drop_drop. do 2 f_equal. lia.
Qed.

Lemma last_n_elem_of {A} (n : nat) (l1 l2 : list A) (x : A) :
  (length l2 < n)%nat -> x ∈ last_n n (l1 ++ (x :: l2)).
Proof.
  intros Hlen. unfold last_n. rewrite length_app. simpl.
  rewrite drop_app_le by lia.
  apply elem_of_app. right. left.
Qed.

(** What one run does. *)
Lemma checkScheduledPush_cases (now : clock) (s : string_set) :
  let k := slot_key (dateStr now) (hour now) in
  (on_schedule now /\ (k ∉ s) /\
   checkScheduledPush now s = (trim (s ++ [k]), Some k)) \/
  ((~ on_schedule now \/ k ∈ s) /\ checkScheduledPush now s = (s, None)).
Proof.
  unfold checkScheduledPush, PUSH_SCHEDULE, schedule_loop, on_schedule, set_add, set_has.
  cbn [sched_hour sched_minute].
  repeat case_bool_decide; cbn [andb]; first
    [ left; split; [lia|]; split; [assumption|reflexivity]
    | right; split; [|reflexivity]; first [right; assumption | left; lia] ].
Qed.

(** The state after a sequence of runs: the ten keys started last. *)
Lemma run_schedule_spec (ticks : list clock) (ks : list string) :
  NoDup (last_n 10 ks) ->
  let result := run_schedule ticks (last_n 10 ks) in
  fst result = last_n 10 (ks ++ started (snd result)) /\ NoDup (fst result).
Proof.
  revert ks. induction ticks as [|now ticks IH]; intros ks Hnd; simpl.
  - unfold started. simpl. now rewrite app_nil_r.
  - destruct (checkScheduledPush_cases now (last_n 10 ks))
      as [(_ & Hk & ->) | (_ & ->)].
    + rewrite trim_last_n by (apply NoDup_app; split; [exact Hnd|];
        split; [|apply NoDup_singleton];
        intros x Hx Hx'; apply list_elem_of_singleton in Hx'; now subst).
      rewrite last_n_snoc.
      assert (NoDup (last_n 10 (ks ++ [slot_key (dateStr now) (hour now)]))) as Hnd'.
      { rewrite <- last_n_snoc. apply last_n_NoDup.
        apply NoDup_app. split; [exact Hnd|].
        split; [|apply NoDup_singleton].
        intros x Hx Hx'. apply list_elem_of_singleton in Hx'. now subst. }
      specialize (IH _ Hnd').
      destruct (run_schedule ticks _) as [final rounds]. simpl in *.
      unfold started in *. simpl. now rewrite <- app_assoc in IH.
    + specialize (IH _ Hnd).
      destruct (run_schedule ticks _) as [final rounds]. simpl in *.
      exact IH.
Qed.

(** C8.  From the empty set, after any sequence of checkScheduledPush
    runs pushedSlots holds at most 10 keys: the keys of the (up to) ten
    rounds started last, in the order they were added. *)
Theorem C8_pushedSlots_bounded (ticks : list clock) :
  let pushedSlots := fst (run_schedule ticks []) in
  let rounds := snd (run_schedule ticks []) in
  (length pushedSlots <= 10)%nat /\
  pushedSlots = last_n 10 (started rounds) /\
  NoDup pushedSlots.
Proof.
  pose proof (run_schedule_spec ticks [] ltac:(constructor)) as [Heq Hnd].
  change (last_n 10 []) with (@nil string) in *. simpl in Heq.
  cbv zeta. split; [|split; assumption].
  rewrite Heq. apply last_n_length.
Qed.

Example replayed_ticks_state :
  fst (run_schedule replayed_ticks []) =
  [ "2026-03-03-8"; "2026-03-04-8"; "2026-03-05-8"; "2026-03-06-8"; "2026-03-07-8";
    "2026-03-08-8"; "2026-03-09-8"; "2026-03-10-8"; "2026-03-11-8"; "2026-03-01-8" ].
Proof. vm_compute. reflexivity. Qed.

Lemma run_schedule_cons (now : clock) (ticks : list clock) (s : string_set) :
  run_schedule (now :: ticks) s =
  (fst (run_schedule ticks (fst (checkScheduledPush now s))),
   snd (checkScheduledPush now s)
     :: snd (run_schedule ticks (fst (checkScheduledPush now s)))).
Proof.
  cbn [run_schedule]. destruct (checkScheduledPush now s) as [s' round].
  cbn [fst snd]. now destruct (run_schedule ticks s').
Qed.

Lemma run_schedule_app (t1 t2 : list clock) (s : string_set) :
  run_schedule (t1 ++ t2) s =
  (fst (run_schedule t2 (fst (run_schedule t1 s))),
   snd (run_schedule t1 s) ++ snd (run_schedule t2 (fst (run_schedule t1 s)))).
Proof.
  revert s. induction t1 as [|now t1 IH]; intros s.
  - simpl. now destruct (run_schedule t2 s).
  - cbn [app]. rewrite !run_schedule_cons, IH. reflexivity.
Qed.

Lemma run_schedule_length (ticks : list clock) (s : string_set) :
  length (snd (run_schedule ticks s)) = length ticks.
Proof.
  revert s. induction ticks as [|now ticks IH]; intros s; [reflexivity|].
  rewrite run_schedule_cons. simpl. now rewrite IH.
Qed.

(** A round is started only at a scheduled time, for the slot of that
    time. *)
Lemma round_on_schedule (ticks : list clock) (s : string_set) (i : nat) (k : string) :
  snd (run_schedule ticks s) !! i = Some (Some k) ->
  exists now, ticks !! i = Some now /\ on_schedule now /\
    k = slot_key (dateStr now) (hour now).
Proof.
  revert s i. induction ticks as [|now ticks IH]; intros s i; [now destruct i|].
  rewrite run_schedule_cons. destruct i as [|i]; simpl.
  - destruct (checkScheduledPush_cases now s) as [(Hon & _ & ->) | (_ & ->)];
      simpl; [|discriminate].
    intros [= <-]. now exists now.
  - apply IH.
Qed.

(** After a round for a slot, a run for the same slot starts no round
    while fewer than ten rounds have been started in between. *)
Lemma no_round_while_remembered (ks : list string) (a b : clock) (between : list clock)
    (k : string) :
  NoDup (last_n 10 ks) ->
  snd (checkScheduledPush a (last_n 10 ks)) = Some k ->
  let s2 := fst (checkScheduledPush a (last_n 10 ks)) in
  (length (started (snd (run_schedule between s2))) < 10)%nat ->
  dateStr b = dateStr a -> hour b = hour a ->
  snd (checkScheduledPush b (fst (run_schedule between s2))) = None.
Proof.
  intros Hnd Hround s2 Hfew Hdate Hhour. subst s2.
  destruct (checkScheduledPush_cases a (last_n 10 ks)) as [(_ & Hk & Heq) | (_ & Heq)];
    rewrite Heq in *; simpl in Hround; [|discriminate].
  injection Hround as <-. cbn [fst] in *.
  assert (NoDup (last_n 10 ks ++ [slot_key (dateStr a) (hour a)])) as Hnd1.
  { apply NoDup_app. split; [exact Hnd|]. split; [|apply NoDup_singleton].
    intros x Hx Hx'. apply list_elem_of_singleton in Hx'. now subst. }
  rewrite trim_last_n in * by exact Hnd1. rewrite last_n_snoc in *.
  assert (NoDup (last_n 10 (ks ++ [slot_key (dateStr a) (hour a)]))) as Hnd2.
  { rewrite <- last_n_snoc. now apply last_n_NoDup. }
  destruct (run_schedule_spec between _ Hnd2) as [Hstate _].
  rewrite Hstate. rewrite <- app_assoc. cbn [app].
  destruct (checkScheduledPush_cases b
              (last_n 10 (ks ++ slot_key (dateStr a) (hour a)
                 :: started (snd (run_schedule between
                      (last_n 10 (ks ++ [slot_key (dateStr a) (hour a)])))))))
    as [(_ & Hk' & _) | (_ & ->)]; [|reflexivity].
  exfalso. apply Hk'. rewrite Hdate, Hhour. now apply last_n_elem_of.
Qed.

Lemma started_all_none (rounds : list (option string)) :
  (forall l round, rounds !! l = Some round -> round = None) -> started rounds = [].
Proof.
  induction rounds as [|r rounds IH]; intros H; [reflexivity|].
  unfold started in *. simpl. rewrite (H 0%nat r eq_refl). simpl.
  apply IH. intros l round Hl. apply (H (S l)). exact Hl.
Qed.

(** The same on a sequence of runs cut into its parts. *)
Lemma second_run_starts_nothing (t1 t2 t3 : list clock) (a b : clock) (k : string) :
  let rounds := snd (run_schedule (t1 ++ a :: t2 ++ b :: t3) []) in
  rounds !! length t1 = Some (Some k) ->
  dateStr b = dateStr a -> hour b = hour a ->
  (length (started (take (length t2) (drop (S (length t1)) rounds))) < 10)%nat ->
  rounds !! (length t1 + S (length t2))%nat = Some None.
Proof.
  intros rounds. subst rounds.
  rewrite run_schedule_app, run_schedule_cons, run_schedule_app, run_schedule_cons.
  cbn [fst snd].
  pose proof (run_schedule_spec t1 [] ltac:(constructor)) as [Hs1 Hnd1].
  change (last_n 10 []) with (@nil string) in *. simpl in Hs1.
  set (rounds1 := snd (run_schedule t1 [])) in *.
  set (s1 := fst (run_schedule t1 [])) in *.
  set (s2 := fst (checkScheduledPush a s1)).
  set (rounds2 := snd (run_schedule t2 s2)).
  set (s3 := fst (run_schedule t2 s2)).
  assert (length rounds1 = length t1) as Hl1 by apply run_schedule_length.
  assert (length rounds2 = length t2) as Hl2 by apply run_schedule_length.
  rewrite lookup_app_r by lia. rewrite Hl1, Nat.sub_diag. cbn [lookup list_lookup].
  intros [= Hround] Hdate Hhour Hfew.
  assert (snd (checkScheduledPush b s3) = None) as ->.
  { subst s3 rounds2 s2. rewrite Hs1 in *.
    apply no_round_while_remembered with (k := k); try assumption.
    cbv zeta. rewrite cons_middle, app_assoc in Hfew.
    rewrite drop_app_length' in Hfew by (rewrite length_app; simpl; lia).
    rewrite take_app_length' in Hfew by (symmetry; apply run_schedule_length).
    exact Hfew. }
  rewrite cons_middle, app_assoc.
  rewrite lookup_app_r by (rewrite length_app; simpl; lia).
  rewrite lookup_app_r by (rewrite length_app; simpl; lia).
  rewrite length_app, Hl1, Hl2. simpl.
  replace (length t1 + S (length t2) - (length t1 + 1) - length t2)%nat with 0%nat by lia.
  reflexivity.
Qed.

(** C5 on the sequence of [replayed_ticks]: the run for 2026-03-01 at
    08:00 starts a round, ten rounds for other dates follow, and the
    second run for 2026-03-01 at 08:00 starts a round again. *)
Lemma C5_counterexample :
  exists a b k,
    replayed_ticks !! 0%nat = Some a /\ replayed_ticks !! 11%nat = Some b /\
    dateStr b = dateStr a /\ hour b = hour a /\
    snd (run_schedule replayed_ticks []) !! 0%nat = Some (Some k) /\
    snd (run_schedule replayed_ticks []) !! 11%nat = Some (Some k).
Proof.
  eexists _, _, _.
  split; [reflexivity|]. split; [reflexivity|].
  split; [reflexivity|]. split; [reflexivity|].
  split; vm_compute; reflexivity.
Qed.

(** C5, amended.  For every sequence of checkScheduledPush runs from the
    empty set: a round is started only at 08:00 or 20:00, for the slot
    of that date and hour; once a round has been started for a slot, a
    later run with the same date and hour starts none as long as fewer
    than ten rounds have been started in between (the key is then still
    among the ten that pushedSlots keeps); in particular no slot is
    served twice when a slot that the runs have left does not come back,
    as with a clock that never goes back. *)
Theorem C5_one_round_per_slot (ticks : list clock) :
  let rounds := snd (run_schedule ticks []) in
  (forall i k, rounds !! i = Some (Some k) ->
     exists now, ticks !! i = Some now /\ on_schedule now /\
       k = slot_key (dateStr now) (hour now)) /\
  (forall i j a b k, (i < j)%nat ->
     ticks !! i = Some a -> ticks !! j = Some b ->
     rounds !! i = Some (Some k) ->
     dateStr b = dateStr a -> hour b = hour a ->
     (length (started (take (j - S i) (drop (S i) rounds))) < 10)%nat ->
     rounds !! j = Some None) /\
  (slots_do_not_return ticks ->
   forall i j a b k, (i < j)%nat ->
     ticks !! i = Some a -> ticks !! j = Some b ->
     rounds !! i = Some (Some k) ->
     dateStr b = dateStr a -> hour b = hour a ->
     rounds !! j = Some None).
Proof.
  intros rounds.
  assert (forall i j a b k, (i < j)%nat ->
     ticks !! i = Some a -> ticks !! j = Some b ->
     rounds !! i = Some (Some k) ->
     dateStr b = dateStr a -> hour b = hour a ->
     (length (started (take (j - S i) (drop (S i) rounds))) < 10)%nat ->
     rounds !! j = Some None) as Hwindow.
  { intros i j a b k Hij Ha Hb Hround Hdate Hhour Hfew. subst rounds.
    assert (drop (S i) ticks !! (j - S i)%nat = Some b) as Hb'.
    { rewrite lookup_drop. rewrite <- Hb. f_equal. lia. }
    set (t1 := take i ticks). set (t2 := take (j - S i) (drop (S i) ticks)).
    set (t3 := drop (S (j - S i)) (drop (S i) ticks)).
    assert (length t1 = i) as L1.
    { apply length_take_le. apply lookup_lt_Some in Ha. lia. }
    assert (length t2 = (j - S i)%nat) as L2.
    { apply length_take_le. apply lookup_lt_Some in Hb'. lia. }
    assert (ticks = t1 ++ a :: t2 ++ b :: t3) as E.
    { subst t1 t2 t3. rewrite (take_drop_middle _ _ _ Hb').
      symmetry. apply take_drop_middle, Ha. }
    clearbody t1 t2 t3. subst ticks.
    replace j with (length t1 + S (length t2))%nat by lia.
    apply second_run_starts_nothing with (k := k); try assumption.
    - rewrite L1. exact Hround.
    - rewrite L1, L2. exact Hfew. }
  split; [|split].
  - intros i k. apply round_on_schedule.
  - exact Hwindow.
  - intros Hnoreturn i j. revert i.
    induction j as [j IH] using lt_wf_ind.
    intros i a b k Hij Ha Hb Hround Hdate Hhour.
    apply (Hwindow i j a b k); try assumption.
    rewrite started_all_none; [simpl; lia|].
    intros l round Hl.
    apply lookup_take_Some in Hl as [Hl Hlt]. rewrite lookup_drop in Hl.
    assert (is_Some (ticks !! (S i + l)%nat)) as [c Hc].
    { apply lookup_lt_is_Some. apply lookup_lt_Some in Hb. lia. }
    destruct (Hnoreturn i j (S i + l)%nat a c b ltac:(lia) Ha Hc Hb Hdate Hhour)
      as [Hcd Hch].
    pose proof (IH (S i + l)%nat ltac:(lia) i a c k ltac:(lia) Ha Hc Hround Hcd Hch) as Hnone.
    rewrite Hl in Hnone. now injection Hnone.
Qed.

Lemma C5_witness :
  slots_do_not_return one_day_ticks /\
  snd (run_schedule one_day_ticks []) !! 1%nat = Some (Some "2026-03-01-8") /\
  (length (started (take (2 - 2) (drop 2 (snd (run_schedule one_day_ticks []))))) < 10)%nat /\
  snd (run_schedule one_day_ticks []) !! 2%nat = Some None.
Proof.
  assert (slots_do_not_return one_day_ticks) as Hnoreturn.
  { intros i j l a b c [Hil Hlj] Ha Hb Hc Hdate Hhour.
    destruct i as [|[|[|[|[|[|i]]]]]]; simpl in Ha; try discriminate Ha;
      destruct j as [|[|[|[|[|[|j]]]]]]; simpl in Hc; try discriminate Hc;
      try lia;
      injection Ha as <-; injection Hc as <-;
      try discriminate Hdate; try discriminate Hhour;
      destruct l as [|[|[|[|[|[|l]]]]]]; simpl in Hb; try discriminate Hb;
      try lia;
      injection Hb as <-; split; reflexivity. }
  assert (snd (run_schedule one_day_ticks []) !! 1%nat = Some (Some "2026-03-01-8"))
    as Hround by (vm_compute; reflexivity).
  assert (length (started (take (2 - 2) (drop 2 (snd (run_schedule one_day_ticks [])))))
          < 10)%nat as Hfew by (simpl; lia).
  split; [exact Hnoreturn|]. split; [exact Hround|]. split; [exact Hfew|].
  destruct (C5_one_round_per_slot one_day_ticks) as (_ & Hwindow & Hchron).
  exact (Hchron Hnoreturn 1%nat 2%nat _ _ _ ltac:(lia) eq_refl eq_refl Hround eq_refl eq_refl).
Defined.

(** ** Message events (C7) *)

Section events.

Variable normalize : string -> string.
Variable strip_mentions : string -> string.

Lemma run_events_cons (e : event) (evs : list event) (st : bot_state) :
  run_events normalize strip_mentions (e :: evs) st =
  (fst (run_events normalize strip_mentions evs
          (fst (dispatch normalize strip_mentions e st))),
   snd (dispatch normalize strip_mentions e st)
     :: snd (run_events normalize strip_mentions evs
               (fst (dispatch normalize strip_mentions e st)))).
Proof.
  cbn [run_events]. destruct (dispatch _ _ e st) as [st' act]. cbn [fst snd].
  now destruct (run_events _ _ evs st').
Qed.

Lemma run_events_app (l1 l2 : list event) (st : bot_state) :
  run_events normalize strip_mentions (l1 ++ l2) st =
  (fst (run_events normalize strip_mentions l2
          (fst (run_events normalize strip_mentions l1 st))),
   snd (run_events normalize strip_mentions l1 st)
     ++ snd (run_events normalize strip_mentions l2
               (fst (run_events normalize strip_mentions l1 st)))).
Proof.
  revert st. induction l1 as [|e l1 IH]; intros st.
  - simpl. now destruct (run_events _ _ l2 st).
  - cbn [app]. rewrite !run_events_cons, IH. reflexivity.
Qed.

Lemma run_events_length (evs : list event) (st : bot_state) :
  length (snd (run_events normalize strip_mentions evs st)) = length evs.
Proof.
  revert st. induction evs as [|e evs IH]; intros st; [reflexivity|].
  rewrite run_events_cons. simpl. now rewrite IH.
Qed.

(** What the message handler does to the timers and the set. *)
Lemma on_message_cases (t : Z) (m : message) (st : bot_state) :
  let st' := fst (on_message normalize strip_mentions t m st) in
  let act := snd (on_message normalize strip_mentions t m st) in
  (act = None /\ (author_bot m = true \/ id m ∈ processedMessages st) /\ st' = st) \/
  (author_bot m = false /\ (id m ∉ processedMessages st) /\
   timers st' = timers st ++ [((t + DEDUP_TIMEOUT)%Z, id m)] /\
   processedMessages st' = {[ id m ]} ∪ processedMessages st /\
   (is_Some act <-> (is_dm m || mentions_client m) = true)).
Proof.
  unfold on_message. destruct (author_bot m); [left; auto|].
  case_bool_decide as Hseen; [left; auto|].
  right. split; [reflexivity|]. split; [exact Hseen|].
  cbn [subscribers processedMessages timers].
  destruct (is_dm m || mentions_client m).
  - destruct (handleMessage _ _ _ _) as [subs act]. cbn.
    repeat split; eauto.
  - cbn. repeat split; try discriminate. intros [? [=]].
Qed.

Lemma on_message_inv (t : Z) (m : message) (st : bot_state) :
  timers_inv st -> timers_inv (fst (on_message normalize strip_mentions t m st)).
Proof.
  intros [Hnd Hin].
  destruct (on_message_cases t m st) as [(_ & _ & ->) | (_ & Hnew & Ht & Hp & _)];
    [now split|].
  unfold timers_inv. rewrite Ht, Hp. split.
  - rewrite map_app. apply NoDup_app. split; [exact Hnd|].
    split; [|apply NoDup_singleton].
    intros k Hk Hk'. simpl in Hk'. apply list_elem_of_singleton in Hk'. subst k.
    apply elem_of_List_map in Hk as (tm & Heq & Htm).
    apply Hnew. rewrite Heq. now apply Hin.
  - intros tm Htm. apply elem_of_app in Htm as [Htm | Htm].
    + apply elem_of_union_r. now apply Hin.
    + apply list_elem_of_singleton in Htm. subst tm. simpl.
      apply elem_of_union_l. now apply elem_of_singleton.
Qed.

Lemma on_timeout_inv (t : Z) (n : nat) (st : bot_state) :
  timers_inv st -> timers_inv (on_timeout t n st).
Proof.
  intros [Hnd Hin]. unfold on_timeout.
  destruct (timers st !! n) as [[due key]|] eqn:E; [|now split].
  case_bool_decide; [|now split].
  split; cbn [timers processedMessages].
  - eapply sublist_NoDup; [exact Hnd|].
    rewrite <- (take_drop_middle _ _ _ E) at 2. rewrite delete_take_drop.
    rewrite !map_app. apply sublist_app; [reflexivity|]. simpl. now constructor.
  - intros tm Htm. apply elem_of_difference. split.
    + apply Hin. eapply sublist_subseteq; [apply sublist_delete|exact Htm].
    + rewrite elem_of_singleton. intros Heq.
      rewrite delete_take_drop in Htm.
      rewrite <- (take_drop_middle _ _ _ E) in Hnd.
      rewrite map_app in Hnd. simpl in Hnd.
      apply NoDup_app in Hnd as (_ & Hdisj & Htail).
      apply NoDup_cons in Htail as [Hkey _].
      apply elem_of_app in Htm as [Htm | Htm].
      * apply (Hdisj key); [|left].
        apply elem_of_List_map. exists tm. now split.
      * apply Hkey. apply elem_of_List_map. exists tm. now split.
Qed.

Lemma dispatch_inv (e : event) (st : bot_state) :
  timers_inv st -> timers_inv (fst (dispatch normalize strip_mentions e st)).
Proof.
  destruct e as [t m | t n]; simpl; [apply on_message_inv | apply on_timeout_inv].
Qed.

Lemma run_events_inv (evs : list event) (st : bot_state) :
  timers_inv st -> timers_inv (fst (run_events normalize strip_mentions evs st)).
Proof.
  revert st. induction evs as [|e evs IH]; intros st H; [exact H|].
  rewrite run_events_cons. simpl. now apply IH, dispatch_inv.
Qed.

(** Before a timer falls due, it stays pending, and a message with its
    key is skipped. *)
Lemma dispatch_before_due (e : event) (st : bot_state) (due : Z) (key : string) :
  timers_inv st -> (due, key) ∈ timers st -> (event_time e < due)%Z ->
  (due, key) ∈ timers (fst (dispatch normalize strip_mentions e st)) /\
  (forall t m, e = MessageCreate t m -> id m = key ->
     snd (dispatch normalize strip_mentions e st) = None).
Proof.
  intros [Hnd Hin] Htm Htime. destruct e as [t m | t n]; simpl in *.
  - destruct (on_message_cases t m st) as [(Hact & _ & ->) | (_ & Hnew & Ht & _ & _)].
    + split; [exact Htm|]. intros ? ? _ _. exact Hact.
    + split; [rewrite Ht; apply elem_of_app; now left|].
      intros t' m' [= _ <-] Hkey. exfalso. apply Hnew. rewrite Hkey.
      apply (Hin (due, key) Htm).
  - split; [|discriminate]. unfold on_timeout.
    destruct (timers st !! n) as [[due' key']|] eqn:E; [|exact Htm].
    case_bool_decide as Hdue; [|exact Htm]. cbn [timers].
    apply list_elem_of_lookup in Htm as [i Hi].
    destruct (decide (i = n)) as [-> | Hne].
    + rewrite E in Hi. injection Hi as -> ->. lia.
    + apply list_elem_of_lookup.
      destruct (decide (i < n)%nat).
      * exists i. now rewrite list_lookup_delete_lt.
      * exists (i - 1)%nat. rewrite list_lookup_delete_ge by lia.
        rewrite <- Hi. f_equal. lia.
Qed.

Lemma run_before_due (evs : list event) (st : bot_state) (due : Z) (key : string) :
  timers_inv st -> (due, key) ∈ timers st ->
  Forall (fun e => (event_time e < due)%Z) evs ->
  forall i t m, evs !! i = Some (MessageCreate t m) -> id m = key ->
    snd (run_events normalize strip_mentions evs st) !! i = Some None.
Proof.
  revert st. induction evs as [|e evs IH]; intros st Hinv Htm Hall i t m Hi Hkey;
    [now destruct i|].
  apply Forall_cons in Hall as [He Hall].
  destruct (dispatch_before_due e st due key Hinv Htm He) as [Htm' Hskip].
  rewrite run_events_cons. destruct i as [|i]; simpl in *.
  - injection Hi as ->. f_equal. now apply (Hskip t m).
  - eapply IH; eauto. now apply dispatch_inv.
Qed.

End events.

Lemma initial_state_inv : timers_inv initial_state.
Proof. split; [constructor|]. intros tm Htm. now apply elem_of_nil in Htm. Qed.

(** C7.  On every sequence of events along which the clock does not go
    back: of two MessageCreate events with the same message id less than
    10 seconds apart, the second does not invoke handleMessage if the
    first did; and an event whose author is a bot never invokes it. *)
Theorem C7_duplicates_handled_once (normalize strip_mentions : string -> string)
    (evs : list event) :
  chronological evs ->
  let acts := snd (run_events normalize strip_mentions evs initial_state) in
  (forall i j ti tj mi mj act, (i < j)%nat ->
     evs !! i = Some (MessageCreate ti mi) ->
     evs !! j = Some (MessageCreate tj mj) ->
     id mi = id mj -> (tj - ti < DEDUP_TIMEOUT)%Z ->
     acts !! i = Some (Some act) ->
     acts !! j = Some None) /\
  (forall i t m, evs !! i = Some (MessageCreate t m) -> author_bot m = true ->
     acts !! i = Some None).
Proof.
  intros Hchron acts. split.
  - intros i j ti tj mi mj act Hij Hi Hj Hid Hwindow Hact. subst acts.
    assert (drop (S i) evs !! (j - S i)%nat = Some (MessageCreate tj mj)) as Hj'.
    { rewrite lookup_drop. rewrite <- Hj. f_equal. lia. }
    set (pre := take i evs).
    set (mid := take (S (j - S i)) (drop (S i) evs)).
    set (post := drop (S (j - S i)) (drop (S i) evs)).
    assert (length pre = i) as Lpre.
    { apply length_take_le. apply lookup_lt_Some in Hi. lia. }
    assert (evs = pre ++ MessageCreate ti mi :: mid ++ post) as E.
    { subst pre mid post. rewrite take_drop. symmetry. apply take_drop_middle, Hi. }
    assert (mid !! (j - S i)%nat = Some (MessageCreate tj mj)) as Hmid.
    { subst mid. rewrite lookup_take_lt by lia. exact Hj'. }
    assert (Forall (fun e => (event_time e < ti + DEDUP_TIMEOUT)%Z) mid) as Hbefore.
    { apply Forall_forall. intros e He. apply list_elem_of_lookup in He as [l Hl].
      subst mid. pose proof (lookup_lt_Some _ _ _ Hl) as Hlt.
      apply lookup_take_Some in Hl as [Hl Hl'].
      rewrite lookup_drop in Hl.
      pose proof (Hchron (S i + l)%nat j e (MessageCreate tj mj) ltac:(lia) Hl Hj) as Hle.
      simpl in Hle. lia. }
    clearbody pre mid post. subst evs.
    rewrite run_events_app, run_events_cons in *. cbn [fst snd] in *.
    set (st1 := fst (run_events normalize strip_mentions pre initial_state)) in *.
    assert (timers_inv st1) as Hinv1 by apply run_events_inv, initial_state_inv.
    assert (length (snd (run_events normalize strip_mentions pre initial_state)) = length pre)
      as Lacts by apply run_events_length.
    rewrite lookup_app_r in Hact by lia.
    rewrite Lacts, Lpre, Nat.sub_diag in Hact. cbn [lookup list_lookup] in Hact.
    injection Hact as Hact.
    rewrite lookup_app_r by lia. rewrite Lacts, Lpre.
    replace (j - i)%nat with (S (j - S i)) by lia. rewrite lookup_cons.
    rewrite run_events_app. cbn [snd].
    apply lookup_lt_Some in Hmid as Hlen.
    rewrite lookup_app_l by (rewrite run_events_length; exact Hlen).
    cbn [dispatch] in *.
    destruct (on_message_cases normalize strip_mentions ti mi st1)
      as [(Hnone & _) | (_ & _ & Ht & _ & _)]; [congruence|].
    apply run_before_due with (due := (ti + DEDUP_TIMEOUT)%Z) (key := id mi) (t := tj) (m := mj);
      try assumption; [now apply on_message_inv| |congruence].
    rewrite Ht. apply elem_of_app. right. left.
  - intros i t m Hi Hbot. subst acts.
    pose proof (take_drop_middle _ _ _ Hi) as E.
    assert (length (take i evs) = i) as Lpre.
    { apply length_take_le. apply lookup_lt_Some in Hi. lia. }
    rewrite <- E. rewrite run_events_app, run_events_cons. cbn [fst snd].
    rewrite lookup_app_r by (rewrite run_events_length; lia).
    rewrite run_events_length, Lpre, Nat.sub_diag. cbn [lookup list_lookup dispatch].
    unfold on_message. now rewrite Hbot.
Qed.

Lemma C7_witness :
  chronological redelivery /\
  (5000 - 0 < DEDUP_TIMEOUT)%Z /\
  snd (run_events (fun s => s) (fun s => s) redelivery initial_state) !! 0%nat
    = Some (Some ReplySubscribed) /\
  snd (run_events (fun s => s) (fun s => s) redelivery initial_state) !! 1%nat
    = Some None /\
  snd (run_events (fun s => s) (fun s => s) redelivery initial_state) !! 4%nat
    = Some None.
Proof.
  assert (chronological redelivery) as Hchron.
  { intros i j e1 e2 Hij H1 H2.
    destruct i as [|[|[|[|[|i]]]]]; simpl in H1; try discriminate H1;
      destruct j as [|[|[|[|[|j]]]]]; simpl in H2; try discriminate H2;
      try lia; injection H1 as <-; injection H2 as <-; simpl; lia. }
  assert (5000 - 0 < DEDUP_TIMEOUT)%Z as Hwindow by reflexivity.
  assert (snd (run_events (fun s => s) (fun s => s) redelivery initial_state) !! 0%nat
          = Some (Some ReplySubscribed)) as Hfirst by (vm_compute; reflexivity).
  split; [exact Hchron|]. split; [exact Hwindow|]. split; [exact Hfirst|].
  destruct (C7_duplicates_handled_once (fun s => s) (fun s => s) redelivery Hchron)
    as [Hdup Hbot].
  split.
  - exact (Hdup 0%nat 1%nat _ _ _ _ _ ltac:(lia) eq_refl eq_refl eq_refl Hwindow Hfirst).
  - exact (Hbot 4%nat _ _ eq_refl eq_refl).
Defined.

(** Once its timer has run, the message is handled again. *)
Example redelivery_acts :
  snd (run_events (fun s => s) (fun s => s) redelivery initial_state)
  = [Some ReplySubscribed; None; None; Some ReplySubscribed; None].
Proof. vm_compute. reflexivity. Qed.

(** * Further properties of the fetchers *)

(** [.sort(..).slice(0, limit)] keeps the best: what it returns and what
    it leaves out make up the list, and nothing left out has a larger
    key than anything returned. *)
Lemma sort_slice_top {A} (key : A -> Q) (limit : nat) (l : list A) :
  let sorted := js_sort (fun a b => key b - key a) l in
  take limit sorted ++ drop limit sorted ≡ₚ l /\
  length (take limit sorted) = Nat.min limit (length l) /\
  forall a b, a ∈ take limit sorted -> b ∈ drop limit sorted -> key b <= key a.
Proof.
  intros sorted. split; [|split].
  - rewrite take_drop. apply js_sort_perm.
  - rewrite length_take. subst sorted. now rewrite js_sort_length.
  - pose proof (js_sort_strongly_sorted key l) as Hs. fold sorted in Hs.
    rewrite <- (take_drop limit sorted) in Hs.
    apply StronglySorted_app in Hs as (Hcross & _ & _). exact Hcross.
Qed.

(** X1.  When the Hacker News response is read, fetchHackerNews returns
    the [limit] best AI stories of the response and no others: with the
    stories it leaves out it makes up all of them, it returns
    min(limit, number of AI stories) records, and no story left out has
    a larger pointsPerHour than a story returned. *)
Theorem X1_hn_returns_the_top (lib : string_lib) (w : world) (limit : nat)
    (data : HackerNews.search_response) :
  hn_response w = Response true (Some data) ->
  let all := HackerNews.stories (toLowerCase lib) (hn_aiKeywords_test lib)
               (inject_Z (hn_now w) / 1000) data in
  exists out rest,
    fetchHackerNews lib w limit = Returned out /\
    out ++ rest ≡ₚ all /\
    length out = Nat.min limit (length all) /\
    forall s s', s ∈ out -> s' ∈ rest ->
      HackerNews.pointsPerHour s' <= HackerNews.pointsPerHour s.
Proof.
  intros Hresp all.
  destruct (sort_slice_top HackerNews.pointsPerHour limit all) as (Hperm & Hlen & Htop).
  eexists _, _. split; [|split; [exact Hperm|split; [exact Hlen|exact Htop]]].
  unfold fetchHackerNews, HackerNews.fetchHackerNews, HackerNews.fetchHackerNews_try.
  rewrite Hresp. reflexivity.
Qed.

Lemma X1_witness :
  hn_response sample_world = Response true (Some {| HackerNews.hits := Some sample_hits |}) /\
  exists (out rest : list HackerNews.story),
    fetchHackerNews sample_lib sample_world 1 = Returned out /\
    length out = 1%nat /\ length rest = 1%nat.
Proof.
  assert (hn_response sample_world =
          Response true (Some {| HackerNews.hits := Some sample_hits |})) as H by reflexivity.
  split; [exact H|].
  destruct (X1_hn_returns_the_top sample_lib sample_world 1 _ H)
    as (out & rest & Hout & Hperm & Hlen & _).
  exists out, rest. split; [exact Hout|]. split; [exact Hlen|].
  apply Permutation_length in Hperm. rewrite length_app, Hlen in Hperm.
  simpl in Hperm. lia.
Defined.



(** ** GitHub: duplicates and the fallback *)

Lemma sublist_map {A B} (f : A -> B) (l1 l2 : list A) :
  l1 `sublist_of` l2 -> map f l1 `sublist_of` map f l2.
Proof. induction 1; simpl; now constructor. Qed.

Lemma found_spec (results : list GitHub.repo) (i : GitHub.item) :
  GitHub.found results i = true <-> GitHub.full_name i ∈ map GitHub.name results.
Proof.
  unfold GitHub.found. rewrite existsb_exists. split.
  - intros (r & Hr & Heq). apply bool_decide_eq_true in Heq. rewrite <- Heq.
    apply elem_of_List_map. exists r. split; [reflexivity|]. now apply list_elem_of_In.
  - intros H. apply elem_of_List_map in H as (r & Heq & Hr).
    exists r. split; [now apply list_elem_of_In|]. now apply bool_decide_eq_true.
Qed.

Lemma push_items_names (l : list GitHub.item) (results : list GitHub.repo) :
  NoDup (map GitHub.name results) -> NoDup (map GitHub.name (GitHub.push_items results l)).
Proof.
  revert results. induction l as [|i l IH]; intros results Hnd; simpl; [exact Hnd|].
  apply IH. destruct (GitHub.found results i) eqn:E; [exact Hnd|].
  rewrite map_app. apply NoDup_app. split; [exact Hnd|]. split; [|apply NoDup_singleton].
  intros n Hn Hn'. simpl in Hn'. apply list_elem_of_singleton in Hn'. subst n.
  apply found_spec in Hn. congruence.
Qed.

Section github_more.

Variable lib : string_lib.
Variable w : world.

Lemma search_loop_names (limit : nat) (qs : list string) (results out : list GitHub.repo) :
  NoDup (map GitHub.name results) ->
  GitHub.search_loop (encodeURIComponent lib) (github_search w) limit qs results
    = Returned out ->
  NoDup (map GitHub.name out).
Proof.
  revert results. induction qs as [|q qs IH]; intros results H; simpl.
  - now intros [= <-].
  - case_bool_decide; [now intros [= <-]|].
    destruct (github_search w _) as [|[] [data|]]; simpl; try discriminate.
    + apply IH. now apply push_items_names.
    + now apply IH.
    + now apply IH.
Qed.

(** The value of [results] after the inner [try] block. *)
Lemma trending_results (limit : nat) :
  match GitHub.trending_try (toLowerCase lib) (github_desc_match lib)
          (github_name_match lib) (github_trending w) limit with
  | Returned l => l
  | Thrown => []
  end =
  match github_trending w with
  | Response true (Some data) => map GitHub.of_row (take limit (ai_rows lib data))
  | _ => []
  end.
Proof.
  unfold GitHub.trending_try. now destruct (github_trending w) as [|[] [data|]].
Qed.

End github_more.

(** X3.  When the rows of the trending response name each repository
    once, no two records that fetchGitHubTrending returns have the same
    name: an item of the search API whose name is already in the results
    is not added again. *)
Theorem X3_github_names_distinct (lib : string_lib) (w : world) (limit : nat)
    (out : list GitHub.repo) :
  (forall data, github_trending w = Response true (Some data) ->
     NoDup (map GitHub.repo_name (default [] (GitHub.rows data)))) ->
  fetchGitHubTrending lib w limit = Returned out ->
  NoDup (map GitHub.name out).
Proof.
  intros Hrows. unfold fetchGitHubTrending, GitHub.fetchGitHubTrending,
    GitHub.fetchGitHubTrending_try.
  rewrite trending_results.
  set (results0 := match github_trending w with
                   | Response true (Some data) =>
                       map GitHub.of_row (take limit (ai_rows lib data))
                   | _ => []
                   end).
  assert (NoDup (map GitHub.name results0)) as H0.
  { subst results0. destruct (github_trending w) as [|[] [data|]]; try constructor.
    rewrite map_map. cbn [GitHub.name GitHub.of_row].
    eapply sublist_NoDup; [apply (Hrows data eq_refl)|].
    apply sublist_map. etransitivity; [apply sublist_take|apply List_filter_sublist]. }
  assert (forall results : list GitHub.repo, NoDup (map GitHub.name results) ->
            NoDup (map GitHub.name (take limit
              (js_sort (fun a b => or0 (GitHub.starsToday b) - or0 (GitHub.starsToday a))
                       results)))) as Hfinal.
  { intros results Hnd. rewrite <- firstn_map.
    eapply sublist_NoDup; [|apply sublist_take].
    rewrite (Permutation_map GitHub.name (js_sort_perm _ results)). exact Hnd. }
  case_bool_decide.
  - destruct (GitHub.search_loop _ _ _ _ _) as [results|] eqn:E; simpl.
    + intros [= <-]. apply Hfinal. eapply search_loop_names; eauto.
    + intros [= <-]. constructor.
  - simpl. intros [= <-]. now apply Hfinal.
Qed.

Lemma X3_witness :
  (forall data, github_trending search_world = Response true (Some data) ->
     NoDup (map GitHub.repo_name (default [] (GitHub.rows data)))) /\
  exists out, fetchGitHubTrending sample_lib search_world 6 = Returned out /\
    map GitHub.name out
      = [Some "acme/llm-bench"; Some "bigco/llm-serve"; Some "acme/agent-kit"] /\
    NoDup (map GitHub.name out).
Proof.
  assert (forall data, github_trending search_world = Response true (Some data) ->
            NoDup (map GitHub.repo_name (default [] (GitHub.rows data)))) as Hrows.
  { intros data [= <-]. apply (bool_decide_unpack _). vm_compute. exact I. }
  split; [exact Hrows|].
  assert (exists out, fetchGitHubTrending sample_lib search_world 6 = Returned out /\
            map GitHub.name out
            = [Some "acme/llm-bench"; Some "bigco/llm-serve"; Some "acme/agent-kit"])
    as (out & Hout & Hnames).
  { eexists. split; [vm_compute; reflexivity|]. vm_compute. reflexivity. }
  exists out. split; [exact Hout|]. split; [exact Hnames|].
  exact (X3_github_names_distinct sample_lib search_world 6 out Hrows Hout).
Defined.

(** X4.  When the trending response holds at least [limit] AI
    repositories, fetchGitHubTrending does not use the search API: the
    result is the same whatever the search requests would answer, and it
    is made of trending rows alone. *)
Theorem X4_github_trending_suffices (lib : string_lib) (w : world) (limit : nat)
    (data : GitHub.trending_body)
    (search' : string -> fetch_result GitHub.search_body) :
  github_trending w = Response true (Some data) ->
  (limit <= length (ai_rows lib data))%nat ->
  fetchGitHubTrending lib (set_github_search w search') limit
    = fetchGitHubTrending lib w limit /\
  fetchGitHubTrending lib w limit =
    Returned (take limit
      (js_sort (fun a b => or0 (GitHub.starsToday b) - or0 (GitHub.starsToday a))
         (map GitHub.of_row (take limit (ai_rows lib data))))).
Proof.
  intros Hresp Hlen.
  assert (forall w', github_trending w' = Response true (Some data) ->
    fetchGitHubTrending lib w' limit =
    Returned (take limit
      (js_sort (fun a b => or0 (GitHub.starsToday b) - or0 (GitHub.starsToday a))
         (map GitHub.of_row (take limit (ai_rows lib data)))))) as H.
  { intros w' Hw'. unfold fetchGitHubTrending, GitHub.fetchGitHubTrending,
      GitHub.fetchGitHubTrending_try.
    rewrite trending_results, Hw'.
    rewrite bool_decide_eq_false_2; [reflexivity|].
    rewrite length_map, length_take. lia. }
  split; [|now apply H].
  rewrite (H w Hresp). now apply H.
Qed.

Lemma X4_witness :
  github_trending sample_world = Response true (Some {| GitHub.rows := Some sample_rows |}) /\
  (2 <= length (ai_rows sample_lib {| GitHub.rows := Some sample_rows |}))%nat /\
  fetchGitHubTrending sample_lib search_world 2 = fetchGitHubTrending sample_lib sample_world 2.
Proof.
  assert (github_trending sample_world
          = Response true (Some {| GitHub.rows := Some sample_rows |})) as H1 by reflexivity.
  assert (2 <= length (ai_rows sample_lib {| GitHub.rows := Some sample_rows |}))%nat
    as H2 by (vm_compute; lia).
  split; [exact H1|]. split; [exact H2|].
  exact (proj1 (X4_github_trending_suffices sample_lib sample_world 2 _ _ H1 H2)).
Defined.

(** X5.  When the trending response holds fewer than [limit] AI
    repositories and the first search request is rejected,
    fetchGitHubTrending returns the empty sequence: the records of the
    trending response are lost with it. *)
Theorem X5_github_search_rejection_loses_trending (lib : string_lib) (w : world)
    (limit : nat) :
  (forall data, github_trending w = Response true (Some data) ->
     (length (ai_rows lib data) < limit)%nat) ->
  (0 < limit)%nat ->
  github_search w (GitHub.search_url (encodeURIComponent lib) "topic:llm stars:>1000")
    = NetworkError ->
  fetchGitHubTrending lib w limit = Returned [].
Proof.
  intros Hfew Hlimit Hsearch.
  unfold fetchGitHubTrending, GitHub.fetchGitHubTrending, GitHub.fetchGitHubTrending_try.
  rewrite trending_results.
  rewrite bool_decide_eq_true_2.
  - unfold GitHub.queries. cbn [GitHub.search_loop].
    rewrite bool_decide_eq_false_2.
    + now rewrite Hsearch.
    + destruct (github_trending w) as [|[] [data|]]; simpl; try lia.
      rewrite length_map, length_take. specialize (Hfew data eq_refl). lia.
  - destruct (github_trending w) as [|[] [data|]]; simpl; try lia.
    rewrite length_map, length_take. specialize (Hfew data eq_refl). lia.
Qed.

Lemma X5_witness :
  (forall data, github_trending search_rejected_world = Response true (Some data) ->
     (length (ai_rows sample_lib data) < 6)%nat) /\
  (0 < 6)%nat /\
  github_search search_rejected_world
    (GitHub.search_url (encodeURIComponent sample_lib) "topic:llm stars:>1000")
    = NetworkError /\
  fetchGitHubTrending sample_lib search_rejected_world 6 = Returned [] /\
  exists out, fetchGitHubTrending sample_lib sample_world 6 = Returned out /\
    length out = 2%nat.
Proof.
  assert (forall data, github_trending search_rejected_world = Response true (Some data) ->
            (length (ai_rows sample_lib data) < 6)%nat) as H1.
  { intros data [= <-]. vm_compute. lia. }
  assert (0 < 6)%nat as H2 by lia.
  split; [exact H1|]. split; [exact H2|]. split; [reflexivity|].
  split; [exact (X5_github_search_rejection_loses_trending sample_lib
                   search_rejected_world 6 H1 H2 eq_refl)|].
  eexists. split; [vm_compute; reflexivity|]. reflexivity.
Defined.

(** ** Reddit: rejected and refused requests *)

Section reddit_more.

Variable net : string -> fetch_result Reddit.listing.

Lemma sub_loop_rejected (now : Q) (subs : list string) (allPosts : list Reddit.post)
    (sub : string) :
  sub ∈ subs -> net (Reddit.hot_url sub) = NetworkError ->
  Reddit.sub_loop net now subs allPosts = Thrown.
Proof.
  revert allPosts. induction subs as [|s subs IH]; intros allPosts Hin Hrej.
  - now apply elem_of_nil in Hin.
  - simpl. apply elem_of_cons in Hin as [<- | Hin].
    + now rewrite Hrej.
    + destruct (net (Reddit.hot_url s)) as [|[] [data|]]; simpl; try reflexivity;
        now apply IH.
  Qed.

Lemma sub_loop_skips (net' : string -> fetch_result Reddit.listing) (now : Q)
    (subs : list string) (allPosts : list Reddit.post) :
  (forall sub, sub ∈ subs ->
     net' (Reddit.hot_url sub) = net (Reddit.hot_url sub) \/
     ((exists b, net (Reddit.hot_url sub) = Response false b) /\
      net' (Reddit.hot_url sub) = Response true (Some empty_listing))) ->
  Reddit.sub_loop net' now subs allPosts = Reddit.sub_loop net now subs allPosts.
Proof.
  revert allPosts. induction subs as [|s subs IH]; intros allPosts H; [reflexivity|].
  simpl.
  assert (forall all, Reddit.sub_loop net' now subs all = Reddit.sub_loop net now subs all)
    as IH'.
  { intros all. apply IH. intros sub Hsub. apply H. now right. }
  destruct (H s ltac:(left)) as [-> | [[b ->] ->]].
  - destruct (net (Reddit.hot_url s)) as [|[] [data|]]; simpl; try reflexivity; apply IH'.
  - simpl. rewrite app_nil_r. apply IH'.
Qed.

End reddit_more.

(** X6.  When the request for one of the five subreddits is rejected,
    fetchReddit returns the empty sequence, whatever the other
    subreddits answer. *)
Theorem X6_reddit_one_rejection_empties (w : world) (limit : nat) (sub : string) :
  sub ∈ Reddit.subreddits ->
  reddit_net w (Reddit.hot_url sub) = NetworkError ->
  fetchReddit w limit = Returned [].
Proof.
  intros Hsub Hrej. unfold fetchReddit, Reddit.fetchReddit, Reddit.fetchReddit_try.
  now rewrite (sub_loop_rejected _ _ _ _ sub Hsub Hrej).
Qed.

Lemma X6_witness :
  "ClaudeAI" ∈ Reddit.subreddits /\
  reddit_net one_rejection_world (Reddit.hot_url "ClaudeAI") = NetworkError /\
  fetchReddit one_rejection_world 5 = Returned [] /\
  exists out, fetchReddit sample_world 5 = Returned out /\ length out = 2%nat.
Proof.
  assert ("ClaudeAI" ∈ Reddit.subreddits) as H1 by (unfold Reddit.subreddits; set_solver).
  assert (reddit_net one_rejection_world (Reddit.hot_url "ClaudeAI") = NetworkError)
    as H2 by reflexivity.
  split; [exact H1|]. split; [exact H2|].
  split; [exact (X6_reddit_one_rejection_empties one_rejection_world 5 _ H1 H2)|].
  eexists. split; [vm_compute; reflexivity|]. reflexivity.
Defined.

(** X7.  A subreddit whose response is not ok is skipped: fetchReddit
    returns what it would return had that subreddit answered ok with no
    posts. *)
Theorem X7_reddit_refused_is_skipped (w : world) (limit : nat)
    (net' : string -> fetch_result Reddit.listing) :
  (forall sub, sub ∈ Reddit.subreddits ->
     net' (Reddit.hot_url sub) = reddit_net w (Reddit.hot_url sub) \/
     ((exists b, reddit_net w (Reddit.hot_url sub) = Response false b) /\
      net' (Reddit.hot_url sub) = Response true (Some empty_listing))) ->
  fetchReddit (set_reddit_net w net') limit = fetchReddit w limit.
Proof.
  intros H. unfold fetchReddit, Reddit.fetchReddit, Reddit.fetchReddit_try.
  cbn [reddit_net reddit_now set_reddit_net].
  now rewrite (sub_loop_skips (reddit_net w) net').
Qed.

Lemma X7_witness :
  (forall sub, sub ∈ Reddit.subreddits ->
     reddit_net quiet_reddit_world (Reddit.hot_url sub)
       = reddit_net sample_world (Reddit.hot_url sub) \/
     ((exists b, reddit_net sample_world (Reddit.hot_url sub) = Response false b) /\
      reddit_net quiet_reddit_world (Reddit.hot_url sub)
        = Response true (Some empty_listing))) /\
  fetchReddit quiet_reddit_world 5 = fetchReddit sample_world 5.
Proof.
  assert (forall sub, sub ∈ Reddit.subreddits ->
     reddit_net quiet_reddit_world (Reddit.hot_url sub)
       = reddit_net sample_world (Reddit.hot_url sub) \/
     ((exists b, reddit_net sample_world (Reddit.hot_url sub) = Response false b) /\
      reddit_net quiet_reddit_world (Reddit.hot_url sub)
        = Response true (Some empty_listing))) as H.
  { intros sub Hsub. unfold Reddit.subreddits in Hsub.
    rewrite !elem_of_cons, elem_of_nil in Hsub.
    destruct Hsub as [-> | [-> | [-> | [-> | [-> | []]]]]];
      first [left; reflexivity | right; split; [eexists; reflexivity|reflexivity]]. }
  split; [exact H|].
  exact (X7_reddit_refused_is_skipped sample_world 5 (reddit_net quiet_reddit_world) H).
Defined.

(** ** Hugging Face: how many records, and from where *)

Section hugging_face_more.

Variable lib : string_lib.

Lemma fetchHuggingFace_sources (limit : nat)
    (models : fetch_result (list HuggingFace.model))
    (spaces : fetch_result (list HuggingFace.space)) :
  exists ms ss,
    HuggingFace.fetchHuggingFace (toLowerCase lib) (hf_id_match lib) limit models spaces =
    Returned (take limit
      (js_sort (fun a b => or0 (HuggingFace.likes7d b) - or0 (HuggingFace.likes7d a))
         (map HuggingFace.of_model ms ++ map HuggingFace.of_space ss))) /\
    (ms = [] \/ exists l, models = Response true (Some l) /\ ms = take 4 (ai_models lib l)) /\
    (ss = [] \/ exists l, spaces = Response true (Some l) /\ ss = take 3 l).
Proof.
  unfold HuggingFace.fetchHuggingFace, HuggingFace.fetchHuggingFace_try.
  destruct models as [|[] [ms|]], spaces as [|[] [ss|]]; simpl;
    first
      [ exists [], []; split; [now destruct limit|split; now left]
      | exists (take 4 (ai_models lib ms)), (take 3 ss);
        split; [reflexivity|]; split; right; eauto
      | exists (take 4 (ai_models lib ms)), []; simpl; rewrite app_nil_r;
        split; [reflexivity|]; split; [right; eauto|now left]
      | exists [], (take 3 ss); split; [reflexivity|]; split; [now left|right; eauto] ].
Qed.

End hugging_face_more.

(** X8.  fetchHuggingFace returns at most 7 records whatever the limit:
    they are records of the first 4 AI models of the models response and
    of the first 3 spaces of the spaces response, each at most once. *)
Theorem X8_hf_at_most_four_models_three_spaces (lib : string_lib) (w : world)
    (limit : nat) :
  exists out ms ss,
    fetchHuggingFace lib w limit = Returned out /\
    (length out <= Nat.min limit 7)%nat /\
    out ⊆+ map HuggingFace.of_model ms ++ map HuggingFace.of_space ss /\
    (length ms <= 4)%nat /\ (length ss <= 3)%nat /\
    (ms = [] \/ exists l, hf_models w = Response true (Some l) /\
                          ms = take 4 (ai_models lib l)) /\
    (ss = [] \/ exists l, hf_spaces w = Response true (Some l) /\ ss = take 3 l).
Proof.
  destruct (fetchHuggingFace_sources lib limit (hf_models w) (hf_spaces w))
    as (ms & ss & Heq & Hms & Hss).
  assert (length ms <= 4)%nat as Lms.
  { destruct Hms as [-> | (l & _ & ->)]; [simpl; lia|]. rewrite length_take. lia. }
  assert (length ss <= 3)%nat as Lss.
  { destruct Hss as [-> | (l & _ & ->)]; [simpl; lia|]. rewrite length_take. lia. }
  eexists _, ms, ss. split; [exact Heq|].
  split; [|split; [|repeat split; assumption]].
  - rewrite length_take, js_sort_length, length_app, !length_map. lia.
  - etransitivity; [apply sublist_submseteq, sublist_take|].
    apply Permutation_submseteq, js_sort_perm.
Qed.

(** X9.  When one of the two Hugging Face requests is rejected,
    fetchHuggingFace returns the empty sequence even if the other
    request answers; when the models response is merely not ok, the
    spaces are still returned. *)
Theorem X9_hf_rejection_and_refusal (lib : string_lib) (w : world) (limit : nat) :
  (hf_models w = NetworkError \/ hf_spaces w = NetworkError ->
   fetchHuggingFace lib w limit = Returned []) /\
  (forall b l, hf_models w = Response false b -> hf_spaces w = Response true (Some l) ->
   fetchHuggingFace lib w limit =
   Returned (take limit
     (js_sort (fun a b => or0 (HuggingFace.likes7d b) - or0 (HuggingFace.likes7d a))
        (map HuggingFace.of_space (take 3 l))))).
Proof.
  unfold fetchHuggingFace, HuggingFace.fetchHuggingFace, HuggingFace.fetchHuggingFace_try.
  split.
  - intros [H | H]; rewrite H; [reflexivity|].
    now destruct (hf_models w) as [|ok body].
  - intros b l -> ->. reflexivity.
Qed.

Lemma X9_witness :
  (hf_models (set_hf sample_world NetworkError (hf_spaces sample_world)) = NetworkError \/
   hf_spaces (set_hf sample_world NetworkError (hf_spaces sample_world)) = NetworkError) /\
  fetchHuggingFace sample_lib (set_hf sample_world NetworkError (hf_spaces sample_world)) 5
    = Returned [] /\
  hf_models (set_hf sample_world (Response false None) (hf_spaces sample_world))
    = Response false None /\
  exists out,
    fetchHuggingFace sample_lib
      (set_hf sample_world (Response false None) (hf_spaces sample_world)) 5 = Returned out /\
    map HuggingFace.name out = [Some "acme/chat-demo"].
Proof.
  assert (hf_models (set_hf sample_world NetworkError (hf_spaces sample_world)) = NetworkError \/
          hf_spaces (set_hf sample_world NetworkError (hf_spaces sample_world)) = NetworkError)
    as H1 by (left; reflexivity).
  split; [exact H1|].
  split; [exact (proj1 (X9_hf_rejection_and_refusal sample_lib _ 5) H1)|].
  split; [reflexivity|].
  eexists. split.
  - exact (proj2 (X9_hf_rejection_and_refusal sample_lib
                    (set_hf sample_world (Response false None) (hf_spaces sample_world)) 5)
                 None sample_spaces eq_refl eq_refl).
  - vm_compute. reflexivity.
Defined.

(** ** arXiv and Product Hunt: what a record holds *)

Lemma substring0_nonempty (n : nat) (c : Ascii.ascii) (r : string) :
  substring0 (S n) (String c r) <> EmptyString.
Proof. unfold substring0. simpl. discriminate. Qed.

Lemma candidate_fields (now : Z) (e : Arxiv.entry) (p : Arxiv.paper) :
  Arxiv.candidate now e = Some p ->
  Arxiv.title p <> EmptyString /\ Arxiv.url p <> EmptyString /\
  Arxiv.hoursAgo p <= 48 /\
  (Arxiv.isNew p = true -> Arxiv.hoursAgo p <= 24).
Proof.
  unfold Arxiv.candidate.
  destruct (Arxiv.entry_title e) as [[|c r]|] eqn:Et; try discriminate.
  destruct (Arxiv.link e) as [[|c' r']|] eqn:El; try discriminate.
  simpl. destruct (Arxiv.published e) as [pubDate|]; [|discriminate].
  destruct (le _ 48) eqn:E; [|discriminate].
  intros [= <-]. unfold Arxiv.make_paper.
  cbn [Arxiv.title Arxiv.url Arxiv.hoursAgo Arxiv.isNew]. rewrite Et, El. simpl.
  split; [apply substring0_nonempty|]. split; [discriminate|].
  apply le_true in E. split.
  - change 48 with (Math_round 48) at 1. now apply Math_round_mono.
  - intros Hnew. apply le_true in Hnew.
    change 24 with (Math_round 24) at 1. now apply Math_round_mono.
Qed.

(** X10.  Every paper that fetchArxiv returns has a title and a link
    that are not empty and was published at most 48 hours before the
    clock value the fetcher read; one marked isNew, at most 24 hours
    before. *)
Theorem X10_arxiv_papers_are_recent (w : world) (limit : nat)
    (out : list Arxiv.paper) (p : Arxiv.paper) :
  fetchArxiv w limit = Returned out ->
  p ∈ out ->
  Arxiv.title p <> EmptyString /\ Arxiv.url p <> EmptyString /\
  Arxiv.hoursAgo p <= 48 /\
  (Arxiv.isNew p = true -> Arxiv.hoursAgo p <= 24).
Proof.
  intros Hout Hp. unfold fetchArxiv in Hout.
  destruct (fetchArxiv_cases limit (arxiv_now w) (arxiv_response w))
    as [[Heq _] | (entries & _ & Heq)]; rewrite Heq in Hout; injection Hout as <-.
  - now apply elem_of_nil in Hp.
  - apply entry_loop_elem_of in Hp as [Hp | (e & _ & Hc)];
      [now apply elem_of_nil in Hp|].
    eapply candidate_fields, Hc.
Qed.

Lemma X10_witness :
  exists out p, fetchArxiv sample_world 4 = Returned out /\ p ∈ out /\
    Arxiv.hoursAgo p <= 48.
Proof.
  assert (exists out, fetchArxiv sample_world 4 = Returned out /\
                      exists p, p ∈ out) as (out & Hout & p & Hp).
  { eexists. split; [vm_compute; reflexivity|]. eexists. left. }
  exists out, p. split; [exact Hout|]. split; [exact Hp|].
  exact (proj1 (proj2 (proj2 (X10_arxiv_papers_are_recent sample_world 4 out p Hout Hp)))).
Defined.

Lemma entry_loop_zero (now : Z) (e : Arxiv.entry) (entries : list Arxiv.entry) :
  Arxiv.entry_loop 0 now (e :: entries) [] =
  match Arxiv.candidate now e with Some p => [p] | None => [] end.
Proof.
  simpl. unfold Arxiv.visit. now destruct (Arxiv.candidate now e).
Qed.

(** X11.  fetchArxiv returns at most max(1, limit) papers.  With a limit
    of 0 it still looks at the first entry of the feed, and at no other:
    it returns the paper of that entry when it qualifies. *)
Theorem X11_arxiv_limit_zero (w : world) :
  (forall limit, exists out,
     fetchArxiv w limit = Returned out /\ (length out <= Nat.max 1 limit)%nat) /\
  (forall e entries, arxiv_response w = Response true (Some (e :: entries)) ->
     fetchArxiv w 0 =
     Returned (match Arxiv.candidate (arxiv_now w) e with Some p => [p] | None => [] end)).
Proof.
  split.
  - intros limit. unfold fetchArxiv.
    destruct (fetchArxiv_cases limit (arxiv_now w) (arxiv_response w))
      as [[Heq _] | (entries & _ & Heq)]; rewrite Heq; eexists; (split; [reflexivity|]).
    + simpl. lia.
    + destruct limit as [|limit].
      * destruct entries as [|e entries]; [simpl; lia|].
        rewrite entry_loop_zero. destruct (Arxiv.candidate _ e); simpl; lia.
      * rewrite entry_loop_from_empty by lia. rewrite length_take. lia.
  - intros e entries Hresp. unfold fetchArxiv, Arxiv.fetchArxiv, Arxiv.fetchArxiv_try.
    rewrite Hresp. cbn [fetch mbind outcome_bind negb read_body try_catch].
    now rewrite entry_loop_zero.
Qed.

Lemma X11_witness :
  arxiv_response sample_world = Response true (Some feed_latest_first) /\
  exists p, fetchArxiv sample_world 0 = Returned [p].
Proof.
  assert (arxiv_response sample_world = Response true (Some feed_latest_first))
    as H by reflexivity.
  split; [exact H|].
  eexists. rewrite (proj2 (X11_arxiv_limit_zero sample_world) _ _ H).
  vm_compute. reflexivity.
Defined.

(** X12.  Every product that fetchProductHunt returns has a link and a
    title that are not empty (an item without a link is dropped, a
    missing title reads as unknown), and there are at most [limit] of
    them. *)
Theorem X12_products_have_links (lib : string_lib) (w : world) (limit : nat) :
  exists out,
    fetchProductHunt lib w limit = Returned out /\
    (length out <= limit)%nat /\
    forall p, p ∈ out ->
      ProductHunt.url p <> EmptyString /\ ProductHunt.title p <> EmptyString.
Proof.
  destruct (fetchProductHunt_shape (strip_tags lib) (ph_net w) limit (ph_now w))
    as (items & _ & Heq).
  eexists. split; [exact Heq|]. split.
  - etransitivity; [apply List_filter_length|]. rewrite length_map, length_take. lia.
  - intros p Hp. apply elem_of_List_filter in Hp as [Hp Hurl].
    apply elem_of_List_map in Hp as (i & -> & _). split.
    + intros E. rewrite E in Hurl. discriminate.
    + unfold ProductHunt.make_product. cbn [ProductHunt.title].
      destruct (ProductHunt.item_title i) as [[|c r]|]; simpl; try discriminate.
Qed.

Lemma X12_witness :
  exists out,
    fetchProductHunt sample_lib sample_world 3 = Returned out /\
    (length out <= 3)%nat /\
    forall p, p ∈ out -> ProductHunt.url p <> EmptyString.
Proof.
  destruct (X12_products_have_links sample_lib sample_world 3) as (out & H & Hlen & Hall).
  exists out. split; [exact H|]. split; [exact Hlen|].
  intros p Hp. exact (proj1 (Hall p Hp)).
Defined.

(** X13.  The first Product Hunt feed that answers ok with at least one
    item decides the result, also when none of its items has a link; the
    second feed is used only when the first fails or holds no item. *)
Theorem X13_first_feed_with_items_decides (lib : string_lib) (w : world) (limit : nat)
    (i : ProductHunt.item) (items : list ProductHunt.item) :
  let first := "https://www.producthunt.com/feed?category=artificial-intelligence" in
  let second := "https://www.producthunt.com/topics/artificial-intelligence/feed" in
  let products l :=
    List.filter (fun p => truthy (Some (ProductHunt.url p)))
      (map (ProductHunt.make_product (strip_tags lib) (ph_now w)) (take limit l)) in
  (ph_net w first = Response true (Some (i :: items)) ->
   fetchProductHunt lib w limit = Returned (products (i :: items))) /\
  (failed (ph_net w first) \/ ph_net w first = Response true (Some []) \/
   ph_net w first = Response true None ->
   ph_net w second = Response true (Some (i :: items)) ->
   fetchProductHunt lib w limit = Returned (products (i :: items))).
Proof.
  intros first second products. subst first second products.
  unfold fetchProductHunt, ProductHunt.fetchProductHunt, ProductHunt.sources.
  cbn [ProductHunt.source_loop try_catch]. unfold ProductHunt.try_source.
  split.
  - intros ->. reflexivity.
  - intros H ->. destruct H as [H | [-> | ->]]; [|reflexivity|reflexivity].
    destruct (ph_net w _) as [|ok body]; [reflexivity|].
    simpl in H. subst ok. reflexivity.
Qed.

Lemma X13_witness :
  ph_net sample_world "https://www.producthunt.com/feed?category=artificial-intelligence"
    = Response true (Some sample_items) /\
  exists out, fetchProductHunt sample_lib sample_world 3 = Returned out /\
    map ProductHunt.title out = ["Notetaker AI"].
Proof.
  assert (ph_net sample_world
            "https://www.producthunt.com/feed?category=artificial-intelligence"
          = Response true (Some sample_items)) as H by reflexivity.
  split; [exact H|]. eexists. split.
  - exact (proj1 (X13_first_feed_with_items_decides sample_lib sample_world 3 _ _) H).
  - vm_compute. reflexivity.
Defined.

(** ** The report and its batches *)

Lemma take_length_le {A} (n : nat) (l : list A) : (length (take n l) <= n)%nat.
Proof. rewrite length_take. lia. Qed.

(** X14.  generateTrendReport always returns a report, and its sections
    hold at most 6, 6, 5, 4, 5 and 3 records: 29 at most in all. *)
Theorem X14_report_section_sizes (lib : string_lib) (w : world) :
  exists r, generateTrendReport lib w = Returned r /\
    (length (github r) <= 6)%nat /\ (length (hackerNews r) <= 6)%nat /\
    (length (reddit r) <= 5)%nat /\ (length (arxiv r) <= 4)%nat /\
    (length (huggingface r) <= 5)%nat /\ (length (productHunt r) <= 3)%nat.
Proof.
  assert (exists gh, fetchGitHubTrending lib w 6 = Returned gh /\ (length gh <= 6)%nat)
    as (gh & Egh & Lgh).
  { destruct (fetchGitHubTrending_shape (toLowerCase lib) (github_desc_match lib)
                (github_name_match lib) (encodeURIComponent lib)
                (github_trending w) (github_search w) 6) as (results & Heq & _).
    eexists. split; [exact Heq|apply take_length_le]. }
  assert (exists hn, fetchHackerNews lib w 6 = Returned hn /\ (length hn <= 6)%nat)
    as (hn & Ehn & Lhn).
  { unfold fetchHackerNews.
    destruct (fetchHackerNews_cases (toLowerCase lib) (hn_aiKeywords_test lib)
                6 (hn_now w) (hn_response w)) as [[Heq _] | (data & _ & Heq)];
      eexists; (split; [exact Heq|]); [simpl; lia|apply take_length_le]. }
  assert (exists rd, fetchReddit w 5 = Returned rd /\ (length rd <= 5)%nat)
    as (rd & Erd & Lrd).
  { destruct (fetchReddit_shape (reddit_net w) 5 (reddit_now w)) as (allPosts & Heq & _).
    eexists. split; [exact Heq|apply take_length_le]. }
  assert (exists ax, fetchArxiv w 4 = Returned ax /\ (length ax <= 4)%nat)
    as (ax & Eax & Lax).
  { unfold fetchArxiv.
    destruct (fetchArxiv_cases 4 (arxiv_now w) (arxiv_response w))
      as [[Heq _] | (entries & _ & Heq)];
      eexists; (split; [exact Heq|]); [simpl; lia|].
    rewrite entry_loop_from_empty by lia. apply take_length_le. }
  assert (exists hf, fetchHuggingFace lib w 5 = Returned hf /\ (length hf <= 5)%nat)
    as (hf & Ehf & Lhf).
  { destruct (fetchHuggingFace_shape (toLowerCase lib) (hf_id_match lib) 5
                (hf_models w) (hf_spaces w)) as (results & Heq & _).
    eexists. split; [exact Heq|apply take_length_le]. }
  assert (exists ph, fetchProductHunt lib w 3 = Returned ph /\ (length ph <= 3)%nat)
    as (ph & Eph & Lph).
  { destruct (fetchProductHunt_shape (strip_tags lib) (ph_net w) 3 (ph_now w))
      as (items & _ & Heq).
    eexists. split; [exact Heq|].
    etransitivity; [apply List_filter_length|]. rewrite length_map. apply take_length_le. }
  exists {| date := w_date w; time := w_time w; github := gh; hackerNews := hn;
            reddit := rd; arxiv := ax; huggingface := hf; productHunt := ph |}.
  split.
  { unfold generateTrendReport. rewrite Egh, Ehn, Erd, Eax, Ehf, Eph. reflexivity. }
  cbn [github hackerNews reddit arxiv huggingface productHunt].
  repeat split; assumption.
Qed.

(** ** The sending loop on any number of embeds *)

Lemma send_loop_spec {A} (embeds : list A) (fuel i : nat) :
  (length embeds - i <= fuel)%nat ->
  exists batches,
    send_loop fuel i embeds = Some batches /\
    concat batches = drop i embeds /\
    Forall (fun b => (1 <= length b <= 10)%nat) batches /\
    length batches = ((length embeds - i + 9) / 10)%nat.
Proof.
  revert i. induction fuel as [|fuel IH]; intros i Hfuel.
  - exists []. cbn [send_loop]. rewrite bool_decide_eq_false_2 by lia.
    split; [reflexivity|]. split; [now rewrite drop_ge by lia|].
    split; [constructor|].
    replace (length embeds - i)%nat with 0%nat by lia. reflexivity.
  - cbn [send_loop]. case_bool_decide as Hi.
    + destruct (IH (i + 10)%nat ltac:(lia)) as (rest & Hrest & Hconcat & Hall & Hlen).
      rewrite Hrest. exists (slice i (i + 10) embeds :: rest).
      split; [reflexivity|]. unfold slice.
      replace (i + 10 - i)%nat with 10%nat by lia.
      split; [|split].
      * cbn [concat]. rewrite Hconcat.
        rewrite <- (take_drop 10 (drop i embeds)) at 2.
        now rewrite drop_drop.
      * constructor; [|exact Hall]. rewrite length_take, length_drop. lia.
      * cbn [length]. rewrite Hlen.
        set (n := length embeds) in *.
        assert (n - (i + 10) = n - i - 10)%nat as -> by lia.
        assert (1 <= n - i)%nat as Hk by lia. revert Hk.
        generalize (n - i)%nat as k. intros k Hk.
        pose proof (Nat.div_mod_eq (k - 10 + 9) 10) as E1.
        pose proof (Nat.div_mod_eq (k + 9) 10) as E2.
        pose proof (Nat.mod_upper_bound (k - 10 + 9) 10 ltac:(lia)) as B1.
        pose proof (Nat.mod_upper_bound (k + 9) 10 ltac:(lia)) as B2.
        lia.
    + exists []. split; [reflexivity|]. split; [now rewrite drop_ge by lia|].
      split; [constructor|].
      replace (length embeds - i)%nat with 0%nat by lia. reflexivity.
Qed.

(** X15.  For any number of embeds the sending loop of pushReport ends,
    every call carries between 1 and 10 embeds, the calls together carry
    all the embeds once and in order, and there are ceil(n / 10) calls. *)
Theorem X15_send_loop_chunks {A} (embeds : list A) :
  exists batches,
    send_batches embeds = Some batches /\
    concat batches = embeds /\
    Forall (fun b => (1 <= length b <= 10)%nat) batches /\
    length batches = ((length embeds + 9) / 10)%nat.
Proof.
  destruct (send_loop_spec embeds (length embeds) 0 ltac:(lia))
    as (batches & Heq & Hconcat & Hall & Hlen).
  exists batches. rewrite Nat.sub_0_r in Hlen. rewrite drop_0 in Hconcat.
  now repeat split.
Qed.

Example twenty_three_embeds :
  (fun bs => map length bs) <$> send_batches (replicate 23 0%nat) = Some [10; 10; 3]%nat.
Proof. reflexivity. Qed.

(** ** The schedule: every new slot is served *)

Lemma append_nil (t : string) : EmptyString +:+ t = t.
Proof. reflexivity. Qed.

Lemma append_cons (c : Ascii.ascii) (s t : string) :
  String c s +:+ t = String c (s +:+ t).
Proof. reflexivity. Qed.

Lemma append_assoc (s1 s2 s3 : string) : (s1 +:+ s2) +:+ s3 = s1 +:+ (s2 +:+ s3).
Proof.
  induction s1 as [|c s1 IH]; rewrite ?append_nil, ?append_cons; [reflexivity|].
  now rewrite IH.
Qed.

Lemma append_last_inj (s1 s2 : string) (c1 c2 : Ascii.ascii) :
  s1 +:+ String c1 EmptyString = s2 +:+ String c2 EmptyString -> s1 = s2 /\ c1 = c2.
Proof.
  revert s2. induction s1 as [|a s1 IH]; intros [|b s2];
    rewrite ?append_nil, ?append_cons; intros H.
  - now injection H.
  - injection H as _ H. destruct s2; discriminate.
  - injection H as _ H. destruct s1; discriminate.
  - injection H as -> H. apply IH in H as [-> ->]. now split.
Qed.

Lemma append_nil_inj_r (s1 s2 : string) :
  s1 +:+ EmptyString = s2 +:+ EmptyString -> s1 = s2.
Proof.
  revert s2. induction s1 as [|a s1 IH]; intros [|b s2];
    rewrite ?append_nil, ?append_cons; try discriminate; [reflexivity|].
  intros [= -> H]. f_equal. now apply IH.
Qed.

Lemma append_inj_r (t s1 s2 : string) : s1 +:+ t = s2 +:+ t -> s1 = s2.
Proof.
  revert s1 s2. induction t as [|c t IH]; intros s1 s2 H.
  - now apply append_nil_inj_r.
  - change (String c t) with (String c EmptyString +:+ t) in H.
    rewrite <- !append_assoc in H. apply IH in H.
    now apply append_last_inj in H as [-> _].
Qed.

(** The keys of two scheduled times are the same only for the same date
    and hour. *)
Lemma slot_key_inj (a b : clock) :
  on_schedule a -> on_schedule b ->
  slot_key (dateStr a) (hour a) = slot_key (dateStr b) (hour b) ->
  dateStr a = dateStr b /\ hour a = hour b.
Proof.
  unfold slot_key. intros [_ [Ha | Ha]] [_ [Hb | Hb]]; rewrite Ha, Hb;
    change (pretty 8%nat) with "8"; change (pretty 20%nat) with "20"; intros H.
  - apply append_inj_r in H. now split.
  - exfalso. change ("-" +:+ "20") with (("-" +:+ "2") +:+ "0") in H.
    rewrite <- !append_assoc in H.
    apply append_last_inj in H as [_ H]. discriminate.
  - exfalso. change ("-" +:+ "20") with (("-" +:+ "2") +:+ "0") in H.
    rewrite <- !append_assoc in H.
    apply append_last_inj in H as [_ H]. discriminate.
  - apply append_inj_r in H. now split.
Qed.

Lemma elem_of_started (rounds : list (option string)) (k : string) :
  k ∈ started rounds <-> exists i, rounds !! i = Some (Some k).
Proof.
  unfold started. rewrite list_elem_of_omap. split.
  - intros (r & Hr & ->). now apply list_elem_of_lookup in Hr.
  - intros [i Hi]. exists (Some k). split; [|reflexivity].
    apply list_elem_of_lookup. now exists i.
Qed.

Lemma elem_of_last_n {A} (n : nat) (l : list A) (x : A) : x ∈ last_n n l -> x ∈ l.
Proof. unfold last_n. apply subseteq_drop. Qed.

(** X16.  In every sequence of checkScheduledPush runs from the empty
    set, a run at 08:00 or 20:00 starts a round when no earlier run of
    the sequence fell on a scheduled time with the same date and hour;
    and a run at any other time starts none. *)
Theorem X16_new_slot_is_served (ticks : list clock) (j : nat) (now : clock) :
  ticks !! j = Some now ->
  let rounds := snd (run_schedule ticks []) in
  (on_schedule now ->
   (forall i a, (i < j)%nat -> ticks !! i = Some a -> on_schedule a ->
      ~ (dateStr a = dateStr now /\ hour a = hour now)) ->
   rounds !! j = Some (Some (slot_key (dateStr now) (hour now)))) /\
  (~ on_schedule now -> rounds !! j = Some None).
Proof.
  intros Hj rounds. subst rounds.
  pose proof (take_drop_middle _ _ _ Hj) as E.
  assert (length (take j ticks) = j) as Lpre.
  { apply length_take_le. apply lookup_lt_Some in Hj. lia. }
  set (pre := take j ticks) in *. set (post := drop (S j) ticks) in *.
  assert (forall i a, pre !! i = Some a -> (i < j)%nat /\ ticks !! i = Some a) as Hpre.
  { intros i a Hi. subst pre. apply lookup_take_Some in Hi as [Hi Hlt]. now split. }
  clearbody pre post. subst ticks.
  rewrite run_schedule_app, run_schedule_cons. cbn [fst snd].
  rewrite lookup_app_r by (rewrite run_schedule_length; lia).
  rewrite run_schedule_length, Lpre, Nat.sub_diag. cbn [lookup list_lookup].
  pose proof (run_schedule_spec pre [] ltac:(constructor)) as [Hs1 _].
  change (last_n 10 []) with (@nil string) in *. simpl in Hs1.
  destruct (checkScheduledPush_cases now (fst (run_schedule pre [])))
    as [(Hon & Hk & ->) | ([Hoff | Hk] & ->)]; cbn [snd].
  - split; [reflexivity|]. intros Hoff. now destruct Hoff.
  - split; [|reflexivity]. intros Hon. now destruct Hoff.
  - split; [|reflexivity]. intros Hon Hfresh. exfalso.
    rewrite Hs1 in Hk. apply elem_of_last_n, elem_of_started in Hk as [i Hi].
    apply round_on_schedule in Hi as (a & Ha & Hona & Hkey).
    destruct (Hpre i a Ha) as [Hlt Hta].
    apply (Hfresh i a Hlt).
    + rewrite lookup_app_l by (apply lookup_lt_Some in Ha; lia). exact Ha.
    + exact Hona.
    + apply slot_key_inj; [exact Hona|exact Hon|now symmetry].
Qed.

Lemma X16_witness :
  one_day_ticks !! 4%nat = Some {| dateStr := "2026-03-01"; hour := 20; minute := 0 |} /\
  on_schedule {| dateStr := "2026-03-01"; hour := 20; minute := 0 |} /\
  ~ on_schedule {| dateStr := "2026-03-01"; hour := 8; minute := 1 |} /\
  snd (run_schedule one_day_ticks []) !! 4%nat = Some (Some "2026-03-01-20") /\
  snd (run_schedule one_day_ticks []) !! 3%nat = Some None.
Proof.
  assert (on_schedule {| dateStr := "2026-03-01"; hour := 20; minute := 0 |}) as Hon
    by (split; [reflexivity|right; reflexivity]).
  assert (~ on_schedule {| dateStr := "2026-03-01"; hour := 8; minute := 1 |}) as Hoff
    by (intros [H _]; discriminate H).
  split; [reflexivity|]. split; [exact Hon|]. split; [exact Hoff|]. split.
  - apply (proj1 (X16_new_slot_is_served one_day_ticks 4 _ eq_refl) Hon).
    intros i a Hi Ha Hona [Hd Hh].
    destruct i as [|[|[|[|i]]]]; simpl in Ha; try lia;
      injection Ha as <-; simpl in Hh; discriminate Hh.
  - exact (proj2 (X16_new_slot_is_served one_day_ticks 3 _ eq_refl) Hoff).
Defined.

(** * Further properties of the commands and the events *)

Section commands_more.

Variable normalize : string -> string.

(** What a command does to [subscribers]. *)
Lemma handleMessage_cases (subs : gmap string subscription) (m : message) (text : string) :
  ((normalize text ∉ subscribe_commands ++ unsubscribe_commands) /\
   fst (handleMessage normalize subs m text) = subs) \/
  (normalize text ∈ subscribe_commands /\
   fst (handleMessage normalize subs m text) =
   <[author_id m := {| channelId := channel_id m; enabled := true |}]> subs) \/
  (normalize text ∈ unsubscribe_commands /\
   fst (handleMessage normalize subs m text) = delete (author_id m) subs).
Proof.
  unfold handleMessage, subscribe_commands, unsubscribe_commands, is_one_of.
  set (cmd := normalize text).
  repeat match goal with
  | |- context [bool_decide (cmd ∈ ?l)] =>
      let H := fresh "H" in destruct (bool_decide (cmd ∈ l)) eqn:H;
      [apply bool_decide_eq_true in H | apply bool_decide_eq_false in H]
  end; cbn [fst];
  first
    [ right; left; split; [assumption|reflexivity]
    | right; right; split; [assumption|reflexivity]
    | left; split; [|reflexivity];
      rewrite !elem_of_app; rewrite !elem_of_cons, !elem_of_nil in *;
      intros [[-> | [-> | []]] | [-> | [-> | []]]];
      repeat match goal with
      | H : ~ _ |- _ => (exfalso; apply H; tauto) || clear H
      | H : _ \/ _ |- _ => destruct H as [H | H]; try discriminate H
      | H : False |- _ => destruct H
      end ].
Qed.

End commands_more.

(** X17.  handleMessage changes the subscriber map on the subscribe and
    unsubscribe commands only: on every other text, a known command or
    not, the map stays as it is. *)
Theorem X17_other_commands_keep_subscribers (normalize : string -> string)
    (subs : gmap string subscription) (m : message) (text : string) :
  normalize text ∉ subscribe_commands ++ unsubscribe_commands ->
  fst (handleMessage normalize subs m text) = subs.
Proof.
  intros Hcmd.
  destruct (handleMessage_cases normalize subs m text)
    as [[_ H] | [[Hin _] | [Hin _]]]; [exact H| |];
    exfalso; apply Hcmd, elem_of_app; [now left|now right].
Qed.

Lemma X17_witness :
  ((fun s : string => s) "!news" ∉ subscribe_commands ++ unsubscribe_commands) /\
  fst (handleMessage (fun s => s)
         {[ "ada" := {| channelId := "dm-ada"; enabled := true |} ]}
         (direct_message "7" "bob" "!news") "!news")
  = {[ "ada" := {| channelId := "dm-ada"; enabled := true |} ]}.
Proof.
  assert ((fun s : string => s) "!news" ∉ subscribe_commands ++ unsubscribe_commands) as H.
  { unfold subscribe_commands, unsubscribe_commands. simpl.
    rewrite !elem_of_cons, elem_of_nil. intros [H | [H | [H | [H | []]]]]; discriminate H. }
  split; [exact H|].
  exact (X17_other_commands_keep_subscribers (fun s => s) _ _ "!news" H).
Defined.

(** X18.  Subscribing and then unsubscribing leaves the map without the
    author, which is the map as it was when the author had no entry;
    subscribing twice is the same as subscribing once; and the status
    command reads the entry back: subscribed after the one, not
    subscribed after the other. *)
Theorem X18_subscribe_round_trip (normalize : string -> string)
    (subs : gmap string subscription) (m : message) (sub unsub status : string) :
  normalize sub ∈ subscribe_commands ->
  normalize unsub ∈ unsubscribe_commands ->
  normalize status ∈ ["!status"; "狀態"] ->
  let subscribed := fst (handleMessage normalize subs m sub) in
  let unsubscribed := fst (handleMessage normalize subscribed m unsub) in
  unsubscribed = delete (author_id m) subs /\
  (subs !! author_id m = None -> unsubscribed = subs) /\
  fst (handleMessage normalize subscribed m sub) = subscribed /\
  snd (handleMessage normalize subscribed m status)
    = ReplyStatus true (size subscribed) /\
  snd (handleMessage normalize unsubscribed m status)
    = ReplyStatus false (size unsubscribed).
Proof.
  intros Hsub Hunsub Hstatus subscribed unsubscribed.
  assert (subscribed = <[author_id m := {| channelId := channel_id m; enabled := true |}]> subs)
    as Es.
  { subst subscribed.
    destruct (handleMessage_cases normalize subs m sub)
      as [[Hn _] | [[_ H] | [Hin _]]]; [|exact H|].
    - exfalso. apply Hn, elem_of_app. now left.
    - exfalso. unfold subscribe_commands, unsubscribe_commands in *.
      rewrite !elem_of_cons, elem_of_nil in *.
      destruct Hsub as [E | [E | []]]; rewrite E in Hin;
        destruct Hin as [H | [H | []]]; discriminate H. }
  assert (forall s, fst (handleMessage normalize s m unsub) = delete (author_id m) s) as Eu.
  { intros s.
    destruct (handleMessage_cases normalize s m unsub)
      as [[Hn _] | [[Hin _] | [_ H]]]; [| |exact H].
    - exfalso. apply Hn, elem_of_app. now right.
    - exfalso. unfold subscribe_commands, unsubscribe_commands in *.
      rewrite !elem_of_cons, elem_of_nil in *.
      destruct Hunsub as [E | [E | []]]; rewrite E in Hin;
        destruct Hin as [H | [H | []]]; discriminate H. }
  assert (forall s, snd (handleMessage normalize s m status) =
            ReplyStatus (default false (enabled <$> s !! author_id m)) (size s)) as Est.
  { intros s. unfold handleMessage, is_one_of.
    rewrite !elem_of_cons, elem_of_nil in Hstatus.
    destruct Hstatus as [-> | [-> | []]]; reflexivity. }
  assert (unsubscribed = delete (author_id m) subs) as Eus.
  { subst unsubscribed. rewrite Eu, Es. apply delete_insert_eq. }
  split; [exact Eus|]. split; [|split; [|split]].
  - intros Hnone. rewrite Eus. now apply delete_id.
  - destruct (handleMessage_cases normalize subscribed m sub)
      as [[Hn _] | [[_ H] | [Hin _]]].
    + exfalso. apply Hn, elem_of_app. now left.
    + rewrite H, Es. apply insert_insert_eq.
    + exfalso. unfold subscribe_commands, unsubscribe_commands in *.
      rewrite !elem_of_cons, elem_of_nil in *.
      destruct Hsub as [E | [E | []]]; rewrite E in Hin;
        destruct Hin as [H | [H | []]]; discriminate H.
  - rewrite Est, Es, lookup_insert_eq. reflexivity.
  - rewrite Est, Eus, lookup_delete_eq. reflexivity.
Qed.

Lemma X18_witness :
  (fun s : string => s) "!subscribe" ∈ subscribe_commands /\
  (fun s : string => s) "!unsubscribe" ∈ unsubscribe_commands /\
  (fun s : string => s) "!status" ∈ ["!status"; "狀態"] /\
  snd (handleMessage (fun s => s)
         (fst (handleMessage (fun s => s) ∅ (direct_message "1" "ada" "x") "!subscribe"))
         (direct_message "1" "ada" "x") "!status")
  = ReplyStatus true 1.
Proof.
  assert ((fun s : string => s) "!subscribe" ∈ subscribe_commands) as H1 by left.
  assert ((fun s : string => s) "!unsubscribe" ∈ unsubscribe_commands) as H2 by left.
  assert ((fun s : string => s) "!status" ∈ ["!status"; "狀態"]) as H3 by left.
  split; [exact H1|]. split; [exact H2|]. split; [exact H3|].
  destruct (X18_subscribe_round_trip (fun s => s) ∅ (direct_message "1" "ada" "x")
              "!subscribe" "!unsubscribe" "!status" H1 H2 H3) as (_ & _ & _ & H & _).
  rewrite H. f_equal.
Defined.

(** ** Events: who is handled, who is subscribed, what is remembered *)

Section events_more.

Variable normalize : string -> string.
Variable strip_mentions : string -> string.

(** What one event does to [subscribers]. *)
Lemma dispatch_subscribers (e : event) (st : bot_state) :
  subscribers (fst (dispatch normalize strip_mentions e st)) = subscribers st \/
  exists t m,
    e = MessageCreate t m /\ author_bot m = false /\
    (is_dm m || mentions_client m) = true /\
    subscribers (fst (dispatch normalize strip_mentions e st)) =
    fst (handleMessage normalize (subscribers st) m (strip_mentions (content m))).
Proof.
  destruct e as [t m | t n].
  - cbn [dispatch]. unfold on_message.
    destruct (author_bot m) eqn:Hbot; [now left|].
    case_bool_decide; [now left|].
    cbn [subscribers processedMessages timers].
    destruct (is_dm m || mentions_client m) eqn:Hdm; [|now left].
    right. exists t, m. repeat (split; [assumption || reflexivity|]).
    now destruct (handleMessage _ _ _ _).
  - left. cbn [dispatch fst]. unfold on_timeout.
    destruct (timers st !! n) as [[due key]|]; [|reflexivity].
    now case_bool_decide.
Qed.

(** The de-duplication set holds the keys of the pending timers. *)
Lemma dispatch_remembered (e : event) (st : bot_state) :
  timers_inv st ->
  processedMessages st = list_to_set (map snd (timers st)) ->
  processedMessages (fst (dispatch normalize strip_mentions e st)) =
  list_to_set (map snd (timers (fst (dispatch normalize strip_mentions e st)))).
Proof.
  intros [Hnd _] Heq. destruct e as [t m | t n]; cbn [dispatch fst].
  - destruct (on_message_cases normalize strip_mentions t m st)
      as [(_ & _ & ->) | (_ & _ & Ht & Hp & _)]; [exact Heq|].
    rewrite Ht, Hp, Heq, map_app, list_to_set_app_L. cbn [map snd].
    rewrite list_to_set_cons, list_to_set_nil, (right_id_L ∅ (∪)). apply (comm_L (∪)).
  - unfold on_timeout.
    destruct (timers st !! n) as [[due key]|] eqn:E; [|exact Heq].
    case_bool_decide; [|exact Heq]. cbn [processedMessages timers].
    rewrite Heq.
    assert (length (take n (timers st)) = n) as Ln.
    { apply length_take_le. apply lookup_lt_Some in E. lia. }
    pose proof (take_drop_middle _ _ _ E) as Et.
    set (l1 := take n (timers st)) in *. set (l2 := drop (S n) (timers st)) in *.
    clearbody l1 l2. rewrite <- Et in *. rewrite <- Ln. rewrite delete_middle.
    rewrite !map_app in *. cbn [map snd] in *.
    rewrite !list_to_set_app_L, list_to_set_cons.
    apply NoDup_app in Hnd as (_ & Hdisj & Htail).
    apply NoDup_cons in Htail as [Hkey _].
    apply set_eq. intros k. set_unfold. split.
    + intros [[Hk | [-> | Hk]] Hne]; [now left|congruence|now right].
    + intros [Hk | Hk]; (split; [tauto|]); intros ->.
      * apply (Hdisj key Hk). now left.
      * now apply Hkey.
Qed.

End events_more.

Section event_runs.

Variable normalize : string -> string.
Variable strip_mentions : string -> string.

Lemma run_events_snoc (evs : list event) (e : event) (st : bot_state) :
  fst (run_events normalize strip_mentions (evs ++ [e]) st) =
  fst (dispatch normalize strip_mentions e (fst (run_events normalize strip_mentions evs st))).
Proof. rewrite run_events_app, run_events_cons. reflexivity. Qed.

Lemma run_events_remembered (evs : list event) (st : bot_state) :
  timers_inv st ->
  processedMessages st = list_to_set (map snd (timers st)) ->
  processedMessages (fst (run_events normalize strip_mentions evs st)) =
  list_to_set (map snd (timers (fst (run_events normalize strip_mentions evs st)))).
Proof.
  revert st. induction evs as [|e evs IH]; intros st Hinv Heq; [exact Heq|].
  rewrite run_events_cons. cbn [fst]. apply IH.
  - now apply dispatch_inv.
  - now apply dispatch_remembered.
Qed.

(** Where an entry of [subscribers] comes from. *)
Lemma subscribers_provenance (evs : list event) (u : string) (s : subscription) :
  subscribers (fst (run_events normalize strip_mentions evs initial_state)) !! u = Some s ->
  enabled s = true /\
  exists i t m,
    evs !! i = Some (MessageCreate t m) /\
    author_id m = u /\ author_bot m = false /\
    (is_dm m || mentions_client m) = true /\
    normalize (strip_mentions (content m)) ∈ subscribe_commands /\
    channelId s = channel_id m.
Proof.
  revert u s. induction evs as [|e evs IH] using rev_ind; intros u s Hs.
  - simpl in Hs. now rewrite lookup_empty in Hs.
  - assert (subscribers (fst (run_events normalize strip_mentions evs initial_state)) !! u
            = Some s ->
            enabled s = true /\
            exists i t m,
              (evs ++ [e]) !! i = Some (MessageCreate t m) /\
              author_id m = u /\ author_bot m = false /\
              (is_dm m || mentions_client m) = true /\
              normalize (strip_mentions (content m)) ∈ subscribe_commands /\
              channelId s = channel_id m) as Hold.
    { intros H. destruct (IH u s H) as (Hen & i & t & m & Hi & Hrest).
      split; [exact Hen|]. exists i, t, m. split; [|exact Hrest].
      rewrite lookup_app_l; [exact Hi|]. now apply lookup_lt_Some in Hi. }
    rewrite run_events_snoc in Hs.
    set (st := fst (run_events normalize strip_mentions evs initial_state)) in *.
    destruct (dispatch_subscribers normalize strip_mentions e st)
      as [Heq | (t & m & -> & Hbot & Hdm & Heq)]; rewrite Heq in Hs; [now apply Hold|].
    destruct (handleMessage_cases normalize (subscribers st) m (strip_mentions (content m)))
      as [[_ H] | [[Hcmd H] | [_ H]]]; rewrite H in Hs.
    + now apply Hold.
    + destruct (decide (u = author_id m)) as [-> | Hne].
      * rewrite lookup_insert_eq in Hs. injection Hs as <-.
        split; [reflexivity|]. exists (length evs), t, m.
        split; [now rewrite lookup_app_r, Nat.sub_diag by lia|].
        repeat split; assumption.
      * rewrite lookup_insert_ne in Hs by congruence. now apply Hold.
    + apply lookup_delete_Some in Hs as [_ Hs]. now apply Hold.
Qed.

End event_runs.

(** X19.  A message that is neither a direct message nor a mention of
    the bot never invokes handleMessage. *)
Theorem X19_unaddressed_messages_are_ignored (normalize strip_mentions : string -> string)
    (evs : list event) (i : nat) (t : Z) (m : message) :
  evs !! i = Some (MessageCreate t m) ->
  is_dm m = false -> mentions_client m = false ->
  snd (run_events normalize strip_mentions evs initial_state) !! i = Some None.
Proof.
  intros Hi Hdm Hmention.
  pose proof (take_drop_middle _ _ _ Hi) as E.
  assert (length (take i evs) = i) as Lpre.
  { apply length_take_le. apply lookup_lt_Some in Hi. lia. }
  rewrite <- E. rewrite run_events_app, run_events_cons. cbn [fst snd].
  rewrite lookup_app_r by (rewrite run_events_length; lia).
  rewrite run_events_length, Lpre, Nat.sub_diag. cbn [lookup list_lookup dispatch].
  f_equal.
  destruct (on_message_cases normalize strip_mentions t m
              (fst (run_events normalize strip_mentions (take i evs) initial_state)))
    as [(Hact & _) | (_ & _ & _ & _ & Hsome)]; [exact Hact|].
  rewrite Hdm, Hmention in Hsome. simpl in Hsome.
  destruct (snd (on_message _ _ _ _ _)) as [act|]; [|reflexivity].
  assert (false = true) by (apply Hsome; eauto). discriminate.
Qed.

Lemma X19_witness :
  sample_chat !! 3%nat = Some (MessageCreate 3000 (channel_message "4" "carol" "!subscribe")) /\
  is_dm (channel_message "4" "carol" "!subscribe") = false /\
  mentions_client (channel_message "4" "carol" "!subscribe") = false /\
  snd (run_events (fun s => s) (fun s => s) sample_chat initial_state) !! 3%nat = Some None.
Proof.
  split; [reflexivity|]. split; [reflexivity|]. split; [reflexivity|].
  exact (X19_unaddressed_messages_are_ignored (fun s => s) (fun s => s) sample_chat 3 _ _
           eq_refl eq_refl eq_refl).
Defined.

(** X20.  After any sequence of events the de-duplication set holds the
    message ids whose timer is still pending, each once: it has as many
    elements as there are pending timers, and it is empty when no timer
    is pending. *)
Theorem X20_dedup_set_is_the_pending_timers (normalize strip_mentions : string -> string)
    (evs : list event) :
  let final := fst (run_events normalize strip_mentions evs initial_state) in
  processedMessages final = list_to_set (map snd (timers final)) /\
  NoDup (map snd (timers final)) /\
  size (processedMessages final) = length (timers final) /\
  (timers final = [] -> processedMessages final = ∅).
Proof.
  intros final.
  assert (timers_inv final) as [Hnd _] by apply run_events_inv, initial_state_inv.
  assert (processedMessages final = list_to_set (map snd (timers final))) as Heq.
  { apply run_events_remembered; [apply initial_state_inv|reflexivity]. }
  split; [exact Heq|]. split; [exact Hnd|]. split.
  - rewrite Heq, size_list_to_set by exact Hnd. apply length_map.
  - intros Hnil. rewrite Heq, Hnil. reflexivity.
Qed.

Lemma X20_witness :
  timers (fst (run_events (fun s => s) (fun s => s)
                 [MessageCreate 0 (direct_message "1" "ada" "!status"); TimerFires 10000 0]
                 initial_state)) = [] /\
  processedMessages (fst (run_events (fun s => s) (fun s => s)
                 [MessageCreate 0 (direct_message "1" "ada" "!status"); TimerFires 10000 0]
                 initial_state)) = ∅.
Proof.
  assert (timers (fst (run_events (fun s => s) (fun s => s)
                 [MessageCreate 0 (direct_message "1" "ada" "!status"); TimerFires 10000 0]
                 initial_state)) = []) as H by (vm_compute; reflexivity).
  split; [exact H|].
  pose proof (X20_dedup_set_is_the_pending_timers (fun s => s) (fun s => s)
                [MessageCreate 0 (direct_message "1" "ada" "!status"); TimerFires 10000 0])
    as Hall.
  cbv zeta in Hall. destruct Hall as (_ & _ & _ & Hempty). exact (Hempty H).
Defined.

(** X21.  After any sequence of events, a user has an entry in
    [subscribers] only if a message of that user, not a bot, sent to the
    bot directly or mentioning it, carried the subscribe command; the
    entry names the channel of such a message and has enabled = true. *)
Theorem X21_subscribers_asked_for_it (normalize strip_mentions : string -> string)
    (evs : list event) (u : string) (s : subscription) :
  subscribers (fst (run_events normalize strip_mentions evs initial_state)) !! u = Some s ->
  enabled s = true /\
  exists i t m,
    evs !! i = Some (MessageCreate t m) /\
    author_id m = u /\ author_bot m = false /\
    (is_dm m || mentions_client m) = true /\
    normalize (strip_mentions (content m)) ∈ subscribe_commands /\
    channelId s = channel_id m.
Proof. apply subscribers_provenance. Qed.

Lemma X21_witness :
  subscribers (fst (run_events (fun s => s) (fun s => s) sample_chat initial_state)) !! "ada"
    = Some {| channelId := "dm-ada"; enabled := true |} /\
  subscribers (fst (run_events (fun s => s) (fun s => s) sample_chat initial_state)) !! "bob"
    = None /\
  subscribers (fst (run_events (fun s => s) (fun s => s) sample_chat initial_state)) !! "robot"
    = None /\
  exists i t m, sample_chat !! i = Some (MessageCreate t m) /\ author_id m = "ada".
Proof.
  assert (subscribers (fst (run_events (fun s => s) (fun s => s) sample_chat initial_state))
            !! "ada" = Some {| channelId := "dm-ada"; enabled := true |}) as H
    by (vm_compute; reflexivity).
  split; [exact H|]. split; [vm_compute; reflexivity|]. split; [vm_compute; reflexivity|].
  destruct (X21_subscribers_asked_for_it (fun s => s) (fun s => s) sample_chat "ada" _ H)
    as (_ & i & t & m & Hi & Hu & _).
  now exists i, t, m.
Defined.

(** X22.  After any sequence of events every subscriber is enabled, so a
    push round goes to all the users in [subscribers] and to no one
    else. *)
Theorem X22_round_reaches_every_subscriber (normalize strip_mentions : string -> string)
    (evs : list event) :
  let final := fst (run_events normalize strip_mentions evs initial_state) in
  round_users (subscribers final) = dom (subscribers final).
Proof.
  intros final. unfold round_users. f_equal. apply map_filter_id.
  intros u s Hs. simpl. now apply (subscribers_provenance normalize strip_mentions evs u s).
Qed.
